(** * AsmDecorator: line correspondence between a source view and its listing

    A shallow embedding of [src/decorator.ts].  The decorator object and the
    part of the editor host it talks to are explicit state; every method is a
    computation over that state which may fault (a thrown JavaScript
    exception) and which records the commands it sends to the host. *)

From stdpp Require Import base option list gmap strings functions.
From Stdlib Require Import ZArith Lia Sorted.

Local Open Scope Z_scope.

(** ** Host data: identities, positions, documents *)

Module Uri.
Record t := mk
  { scheme : string; authority : string; path : string;
    query : string; fragment : string }.
End Uri.

(** The two library functions whose result depends on the platform the
    extension host runs on: [path.basename] (POSIX or Win32 flavour of Node's
    [path] module) and the canonical text of a [Uri]. *)
Class Platform := {
  basename : string → string;
  Uri_toString : Uri.t → string
}.

(** [String.prototype.endsWith]: [suffix] is [s] or ends what follows the
    first character of [s]. *)
Fixpoint endsWith (s suffix : string) : bool :=
  String.eqb s suffix ||
  match s with
  | EmptyString => false
  | String _ s' => endsWith s' suffix
  end.

Module Position.
Record t := mk { line : nat; character : nat }.
End Position.

Module Range.
Record t := mk { start : Position.t; end_ : Position.t }.
End Range.

(** A JavaScript exception, by the place that throws it. *)
Inductive Fault :=
| IllegalLine      (* [TextDocument.lineAt] outside [0, lineCount) *)
| UndefinedAccess. (* TypeError: property read on [undefined] *)

(** A document of the host: its identity and its lines of text. *)
Module TextDocument.
Record t := mk { uri : Uri.t; text : list string }.

Definition lineCount (d : t) : nat := length (text d).

(** The range of a [TextLine]: the whole line, without its line break. *)
Definition lineRange (line : nat) (content : string) : Range.t :=
  Range.mk (Position.mk line 0) (Position.mk line (String.length content)).

(** [lineAt(line).range].  The host accepts a line number in
    [0, lineCount) and throws on any other; [decorator.ts] guards one of its
    calls with [line >= lineCount] for that reason. *)
Definition lineAt (d : t) (line : Z) : Fault + Range.t :=
  if 0 <=? line then
    match text d !! Z.to_nat line with
    | Some content => inr (lineRange (Z.to_nat line) content)
    | None => inl IllegalLine
    end
  else inl IllegalLine.
End TextDocument.

(** ** Listing data (declared in [asm.ts], [document.ts])

    [asmLineHasSource] reads [asmLine.source?.file] and compares the result
    with [undefined], so both an absent annotation and an annotation without
    a file are inputs the method handles; [file] is optional here to cover
    both. *)

Module AsmSource.
Record t := mk { file : option string; line : Z }.
End AsmSource.

Module AsmLine.
Record t := mk { text : string; source : option AsmSource.t }.
End AsmLine.

Module AsmDocument.
Record t := mk { lines : list AsmLine.t }.
End AsmDocument.

(** ** The editor host *)

Definition EditorRef := nat.
Definition DocumentRef := nat.

Inductive DecorationType :=
| selectedLineDecorationType
| unusedLineDecorationType.

Global Instance DecorationType_eq_dec : EqDecision DecorationType.
Proof. solve_decision. Defined.

Inductive TextEditorRevealType := InCenterIfOutsideViewport.

(** An editor object: the document it shows, [selection.start.line], and
    the ranges it currently decorates, per decoration type. *)
Module TextEditor.
Record t := mk
  { document : DocumentRef;
    selection_start_line : nat;
    decorations : DecorationType → list Range.t }.
End TextEditor.

(** Editors and documents are objects, compared by reference ([===]) and
    shared between the host and the decorator: the host is a store from
    references to objects.  [provideAsmDocument] is the provider's current
    answer; [dimUnusedSourceLines_setting] is the configuration value of
    [compilerexplorer.dimUnusedSourceLines] for a document, when set. *)
Module Host.
Record t := mk
  { editors : EditorRef → TextEditor.t;
    documents : DocumentRef → TextDocument.t;
    visibleTextEditors : list EditorRef;
    provideAsmDocument : Uri.t → AsmDocument.t;
    dimUnusedSourceLines_setting : Uri.t → option bool }.
End Host.

(** Commands sent to the host while a handler runs. *)
Inductive HostCall :=
| SetDecorations (editor : EditorRef) (type : DecorationType) (ranges : list Range.t)
| RevealRange (editor : EditorRef) (range : Range.t) (revealType : TextEditorRevealType)
| ProvideAsmDocument (uri : Uri.t).

(** ** The decorator object *)

Module AsmDecorator.
Record t := mk
  { srcEditor : EditorRef;
    asmEditor : EditorRef;
    document : AsmDocument.t;
    visible : bool;
    mappings : gmap Z (list nat);
    (* [const uri = asmEditor.document.uri], captured by the callbacks *)
    uri : Uri.t }.
End AsmDecorator.

Record World := mkWorld { host : Host.t; self : AsmDecorator.t }.

(** ** Computations: state, emitted host calls, faults *)

Record Outcome (A : Type) := mkOutcome
  { final : World; emitted : list HostCall; result : Fault + A }.
Arguments mkOutcome {A} _ _ _.
Arguments final {A} _.
Arguments emitted {A} _.
Arguments result {A} _.

Definition M (A : Type) : Type := World → Outcome A.

Definition ret {A} (a : A) : M A := λ w, mkOutcome w [] (inr a).

Definition throw {A} (e : Fault) : M A := λ w, mkOutcome w [] (inl e).

Definition bind {A B} (m : M A) (f : A → M B) : M B := λ w,
  let o := m w in
  match result o with
  | inl e => mkOutcome (final o) (emitted o) (inl e)
  | inr a =>
      let o' := f a (final o) in
      mkOutcome (final o') (emitted o ++ emitted o') (result o')
  end.

Declare Scope js_scope.
Delimit Scope js_scope with js.
Notation "'let!' x ':=' m 'in' k" := (bind m (λ x, k))
  (at level 10, x name, m at level 100, k at level 200) : js_scope.
Notation "m ';;;' k" := (bind m (λ _, k))
  (at level 100, k at level 200, right associativity) : js_scope.
Local Open Scope js_scope.

(** The outcome [o] of a continuation, after [calls] were emitted. *)
Definition prepend {A} (calls : list HostCall) (o : Outcome A) : Outcome A :=
  mkOutcome (final o) (calls ++ emitted o) (result o).

Definition gets {A} (f : World → A) : M A := λ w, mkOutcome w [] (inr (f w)).

Definition modify (f : World → World) : M unit := λ w, mkOutcome (f w) [] (inr tt).

Definition emit (c : HostCall) : M unit := λ w, mkOutcome w [c] (inr tt).

Definition lift {A} (r : Fault + A) : M A := λ w, mkOutcome w [] r.

(** [array.forEach((x, index) => ...)], starting at [index]. *)
Fixpoint forEach_from {A} (index : nat) (l : list A) (f : A → nat → M unit) : M unit :=
  match l with
  | [] => ret tt
  | x :: l' => f x index ;;; forEach_from (S index) l' f
  end.

Definition forEach {A} (l : list A) (f : A → nat → M unit) : M unit :=
  forEach_from 0 l f.

(** A loop that pushes onto a local array. *)
Fixpoint collect {A B} (l : list A) (f : A → M (option B)) (acc : list B) : M (list B) :=
  match l with
  | [] => ret acc
  | x :: l' =>
      let! pushed := f x in
      collect l' f (match pushed with Some b => acc ++ [b] | None => acc end)
  end.

(** ** Field access and host primitives *)

Definition document_of (w : World) (editor : EditorRef) : TextDocument.t :=
  Host.documents (host w) (TextEditor.document (Host.editors (host w) editor)).

Definition with_self (f : AsmDecorator.t → AsmDecorator.t) (w : World) : World :=
  mkWorld (host w) (f (self w)).

Definition set_srcEditor (e : EditorRef) (d : AsmDecorator.t) :=
  AsmDecorator.mk e (AsmDecorator.asmEditor d) (AsmDecorator.document d)
    (AsmDecorator.visible d) (AsmDecorator.mappings d) (AsmDecorator.uri d).
Definition set_asmEditor (e : EditorRef) (d : AsmDecorator.t) :=
  AsmDecorator.mk (AsmDecorator.srcEditor d) e (AsmDecorator.document d)
    (AsmDecorator.visible d) (AsmDecorator.mappings d) (AsmDecorator.uri d).
Definition set_document (doc : AsmDocument.t) (d : AsmDecorator.t) :=
  AsmDecorator.mk (AsmDecorator.srcEditor d) (AsmDecorator.asmEditor d) doc
    (AsmDecorator.visible d) (AsmDecorator.mappings d) (AsmDecorator.uri d).
Definition set_visible (v : bool) (d : AsmDecorator.t) :=
  AsmDecorator.mk (AsmDecorator.srcEditor d) (AsmDecorator.asmEditor d)
    (AsmDecorator.document d) v (AsmDecorator.mappings d) (AsmDecorator.uri d).
Definition set_mappings (m : gmap Z (list nat)) (d : AsmDecorator.t) :=
  AsmDecorator.mk (AsmDecorator.srcEditor d) (AsmDecorator.asmEditor d)
    (AsmDecorator.document d) (AsmDecorator.visible d) m (AsmDecorator.uri d).

(** The store update behind [editor.setDecorations(type, ranges)]: the
    decoration of that type on that editor is replaced as a whole. *)
Definition store_decorations (editor : EditorRef) (type : DecorationType)
    (ranges : list Range.t) (h : Host.t) : Host.t :=
  let e := Host.editors h editor in
  Host.mk
    (<[editor := TextEditor.mk (TextEditor.document e) (TextEditor.selection_start_line e)
                   (<[type := ranges]> (TextEditor.decorations e))]> (Host.editors h))
    (Host.documents h) (Host.visibleTextEditors h) (Host.provideAsmDocument h)
    (Host.dimUnusedSourceLines_setting h).

(** The world after [editor.setDecorations(type, ranges)]. *)
Definition decorate (editor : EditorRef) (type : DecorationType)
    (ranges : list Range.t) (w : World) : World :=
  mkWorld (store_decorations editor type ranges (host w)) (self w).

Definition setDecorations (editor : EditorRef) (type : DecorationType)
    (ranges : list Range.t) : M unit :=
  modify (decorate editor type ranges) ;;;
  emit (SetDecorations editor type ranges).

Definition revealRange (editor : EditorRef) (range : Range.t)
    (revealType : TextEditorRevealType) : M unit :=
  emit (RevealRange editor range revealType).

(** [editor.document.lineAt(line).range] *)
Definition lineAt_range (editor : EditorRef) (line : Z) : M Range.t :=
  let! d := gets (λ w, document_of w editor) in
  lift (TextDocument.lineAt d line).

(** [editor.document.lineCount] *)
Definition lineCount (editor : EditorRef) : M nat :=
  gets (λ w, TextDocument.lineCount (document_of w editor)).

(** [decorations w editor type]: what the host currently shows. *)
Definition decorations (w : World) (editor : EditorRef) (type : DecorationType) : list Range.t :=
  TextEditor.decorations (Host.editors (host w) editor) type.

(** ** Methods of [AsmDecorator] *)

Section Decorator.
Context `{Platform}.

(** The test of [asmLineHasSource] on a line that exists, against the path
    of the source editor's document. *)
Definition hasSource (sourcePath : string) (asmLine : AsmLine.t) : bool :=
  match AsmLine.source asmLine ≫= AsmSource.file with
  | None => false
  | Some asmLineSourcePath => endsWith sourcePath (basename asmLineSourcePath)
  end.

(** [asmLine] is what an array read produced: [None] is [undefined], and
    reading [asmLine.source] of it throws. *)
Definition asmLineHasSource (asmLine : option AsmLine.t) : M bool :=
  let! sourcePath :=
    gets (λ w, Uri.path (TextDocument.uri (document_of w (AsmDecorator.srcEditor (self w))))) in
  match asmLine with
  | None => throw UndefinedAccess
  | Some l => ret (hasSource sourcePath l)
  end.

(** [line.source!.line]: the assertion is erased at run time. *)
Definition source_line (asmLine : AsmLine.t) : M Z :=
  match AsmLine.source asmLine with
  | None => throw UndefinedAccess
  | Some s => ret (AsmSource.line s)
  end.

(** One pass of the callback body of [loadMappings] on the map. *)
Definition record_mapping (sourceLine : Z) (index : nat)
    (m : gmap Z (list nat)) : gmap Z (list nat) :=
  let m' := match m !! sourceLine with
            | None => <[sourceLine := []]> m
            | Some _ => m
            end in
  alter (λ bucket, bucket ++ [index]) sourceLine m'.

Definition loadMappings : M unit :=
  modify (with_self (set_mappings ∅)) ;;;
  let! lines := gets (λ w, AsmDocument.lines (AsmDecorator.document (self w))) in
  forEach lines (λ line index,
    let! has := asmLineHasSource (Some line) in
    if negb has then ret tt
    else
      let! l := source_line line in
      let sourceLine := l - 1 in
      modify (λ w, with_self (set_mappings
                (record_mapping sourceLine index (AsmDecorator.mappings (self w)))) w)).

Definition dimUnusedSourceLines : M unit :=
  let! src := gets (λ w, AsmDecorator.srcEditor (self w)) in
  let! n := lineCount src in
  let! unusedSourceLines :=
    collect (seq 0 n) (λ line,
      let! m := gets (λ w, AsmDecorator.mappings (self w)) in
      match m !! Z.of_nat line with
      | None => let! r := lineAt_range src (Z.of_nat line) in ret (Some r)
      | Some _ => ret None
      end) [] in
  setDecorations src unusedLineDecorationType unusedSourceLines.

Definition load (uri : Uri.t) : M unit :=
  let! doc := gets (λ w, Host.provideAsmDocument (host w) uri) in
  emit (ProvideAsmDocument uri) ;;;
  modify (with_self (set_document doc)) ;;;
  loadMappings ;;;
  let! dimUnused := gets (λ w,
    default true (Host.dimUnusedSourceLines_setting (host w)
      (TextDocument.uri (document_of w (AsmDecorator.srcEditor (self w)))))) in
  let! visible := gets (λ w, AsmDecorator.visible (self w)) in
  if dimUnused && visible then dimUnusedSourceLines else ret tt.

Definition srcLineSelected (line : Z) : M unit :=
  let! src := gets (λ w, AsmDecorator.srcEditor (self w)) in
  let! asm := gets (λ w, AsmDecorator.asmEditor (self w)) in
  let! srcLineRange := lineAt_range src line in
  setDecorations src selectedLineDecorationType [srcLineRange] ;;;
  let! mapped := gets (λ w, AsmDecorator.mappings (self w) !! line) in
  let! asmLinesRanges :=
    match mapped with
    | Some mapped =>
        collect mapped (λ line,
          let! n := lineCount asm in
          if (n <=? line)%nat then ret None
          else let! r := lineAt_range asm (Z.of_nat line) in ret (Some r)) []
    | None => ret []
    end in
  setDecorations asm selectedLineDecorationType asmLinesRanges ;;;
  match asmLinesRanges with
  | first :: _ => revealRange asm first InCenterIfOutsideViewport
  | [] => ret tt
  end.

(** [array[line]] for a line number. *)
Definition index_lines (lines : list AsmLine.t) (line : Z) : option AsmLine.t :=
  if 0 <=? line then lines !! Z.to_nat line else None.

Definition asmLineSelected (line : Z) : M unit :=
  let! src := gets (λ w, AsmDecorator.srcEditor (self w)) in
  let! asm := gets (λ w, AsmDecorator.asmEditor (self w)) in
  let! asmLine := gets (λ w, index_lines (AsmDocument.lines (AsmDecorator.document (self w))) line) in
  let! asmLineRange := lineAt_range asm line in
  setDecorations asm selectedLineDecorationType [asmLineRange] ;;;
  let! has := asmLineHasSource asmLine in
  if has then
    let! l := match asmLine with
              | Some a => source_line a
              | None => throw UndefinedAccess
              end in
    let! srcLineRange := lineAt_range src (l - 1) in
    setDecorations src selectedLineDecorationType [srcLineRange] ;;;
    revealRange src srcLineRange InCenterIfOutsideViewport
  else
    setDecorations src selectedLineDecorationType [].

Definition updateSelection (editor : EditorRef) : M unit :=
  let! src := gets (λ w, AsmDecorator.srcEditor (self w)) in
  let! asm := gets (λ w, AsmDecorator.asmEditor (self w)) in
  if decide (editor = src) then
    let! line := gets (λ w, TextEditor.selection_start_line (Host.editors (host w) src)) in
    srcLineSelected (Z.of_nat line)
  else if decide (editor = asm) then
    let! line := gets (λ w, TextEditor.selection_start_line (Host.editors (host w) asm)) in
    asmLineSelected (Z.of_nat line)
  else ret tt.

Definition updateVisibility (uri : Uri.t) (visible : bool) : M unit :=
  let! current := gets (λ w, AsmDecorator.visible (self w)) in
  if decide (visible = current) then ret tt
  else
    modify (with_self (set_visible visible)) ;;;
    if visible then load uri
    else
      let! src := gets (λ w, AsmDecorator.srcEditor (self w)) in
      let! asm := gets (λ w, AsmDecorator.asmEditor (self w)) in
      setDecorations asm selectedLineDecorationType [] ;;;
      setDecorations src selectedLineDecorationType [] ;;;
      setDecorations src unusedLineDecorationType [].

(** *** The callbacks registered by the constructor *)

Definition onDidChange (changedUri : Uri.t) : M unit :=
  let! uri := gets (λ w, AsmDecorator.uri (self w)) in
  if decide (Uri_toString changedUri = Uri_toString uri) then load uri else ret tt.

Definition onDidChangeTextEditorSelection (textEditor : EditorRef) : M unit :=
  updateSelection textEditor.

(** [editors.find(editor => editor.document === tracked.document)] *)
Definition find_showing (w : World) (editors : list EditorRef) (tracked : EditorRef)
    : option EditorRef :=
  List.find (λ editor,
      bool_decide (TextEditor.document (Host.editors (host w) editor)
                   = TextEditor.document (Host.editors (host w) tracked)))
    editors.

Definition onDidChangeVisibleTextEditors (editors : list EditorRef) : M unit :=
  let! srcEditor := gets (λ w, find_showing w editors (AsmDecorator.srcEditor (self w))) in
  let! asmEditor := gets (λ w, find_showing w editors (AsmDecorator.asmEditor (self w))) in
  modify (λ w, with_self (set_srcEditor (default (AsmDecorator.srcEditor (self w)) srcEditor)) w) ;;;
  modify (λ w, with_self (set_asmEditor (default (AsmDecorator.asmEditor (self w)) asmEditor)) w) ;;;
  let visible := bool_decide (is_Some srcEditor) && bool_decide (is_Some asmEditor) in
  let! uri := gets (λ w, AsmDecorator.uri (self w)) in
  updateVisibility uri visible.

(** [new AsmDecorator(srcEditor, asmEditor, provider)] on a host: the field
    initialisers, the assignments, then the first [load].  [document] has no
    initialiser in the class; [load] assigns it before anything reads it. *)
Definition constructor (h : Host.t) (srcEditor asmEditor : EditorRef) : Outcome unit :=
  let visible :=
    bool_decide (srcEditor ∈ Host.visibleTextEditors h)
    && bool_decide (asmEditor ∈ Host.visibleTextEditors h) in
  let uri := TextDocument.uri
    (Host.documents h (TextEditor.document (Host.editors h asmEditor))) in
  load uri
    (mkWorld h (AsmDecorator.mk srcEditor asmEditor (AsmDocument.mk []) visible ∅ uri)).

End Decorator.

(** ** The index as a function of the listing

    What one pass of [loadMappings] leaves in the map, written as plain
    recursion over the listing; the theorems below connect the method to it. *)

Section Index.
Context `{Platform}.

(** Listing line [l] has source, against [sourcePath], and its source line
    (0-based) is [s]. *)
Definition maps_to (sourcePath : string) (l : AsmLine.t) (s : Z) : bool :=
  hasSource sourcePath l &&
  match AsmLine.source l with
  | Some a => AsmSource.line a - 1 =? s
  | None => false
  end.

(** Indices, counted from [index], of the lines that map to [s]. *)
Fixpoint hits (sourcePath : string) (index : nat) (lines : list AsmLine.t) (s : Z) : list nat :=
  match lines with
  | [] => []
  | l :: lines' =>
      if maps_to sourcePath l s then index :: hits sourcePath (S index) lines' s
      else hits sourcePath (S index) lines' s
  end.

(** The map after the loop of [loadMappings] ran over [lines], from [m]. *)
Fixpoint build_from (sourcePath : string) (index : nat) (lines : list AsmLine.t)
    (m : gmap Z (list nat)) : gmap Z (list nat) :=
  match lines with
  | [] => m
  | l :: lines' =>
      build_from sourcePath (S index) lines'
        (if hasSource sourcePath l then
           match AsmLine.source l with
           | Some a => record_mapping (AsmSource.line a - 1) index m
           | None => m
           end
         else m)
  end.

Definition sourcePath_of (w : World) : string :=
  Uri.path (TextDocument.uri (document_of w (AsmDecorator.srcEditor (self w)))).

Definition listing_of (w : World) : list AsmLine.t :=
  AsmDocument.lines (AsmDecorator.document (self w)).

(** The range of line [i] of a document, when it has that line. *)
Definition range_at (d : TextDocument.t) (i : nat) : option Range.t :=
  TextDocument.lineRange i <$> TextDocument.text d !! i.

(** The source lines of [0, lineCount) without a bucket, as ranges. *)
Definition unused_ranges (d : TextDocument.t) (m : gmap Z (list nat)) : list Range.t :=
  omap (λ line, match m !! Z.of_nat line with
                | None => range_at d line
                | Some _ => None
                end) (seq 0 (TextDocument.lineCount d)).

Definition is_RevealRange_of (editor : EditorRef) (c : HostCall) : bool :=
  match c with RevealRange e _ _ => bool_decide (e = editor) | _ => false end.

(** The decorator after [load] fetched the listing and rebuilt the index,
    before any dimming. *)
Definition reloaded (uri : Uri.t) (w : World) : World :=
  let doc := Host.provideAsmDocument (host w) uri in
  with_self (set_mappings (build_from (sourcePath_of w) 0 (AsmDocument.lines doc) ∅))
    (with_self (set_document doc) w).

(** The condition [dimUnused && this.visible] of [load]. *)
Definition dim_enabled (w : World) : bool :=
  default true (Host.dimUnusedSourceLines_setting (host w)
    (TextDocument.uri (document_of w (AsmDecorator.srcEditor (self w)))))
  && AsmDecorator.visible (self w).

End Index.

(** ** Events

    The constructor registers three callbacks; the host delivers one event
    at a time and runs the callback to its end.  An exception thrown by a
    callback ends that callback only: the object keeps the state it had when
    the exception was thrown. *)

Inductive Event :=
| DidChange (changedUri : Uri.t)
| DidChangeTextEditorSelection (textEditor : EditorRef)
| DidChangeVisibleTextEditors (editors : list EditorRef).

Section Events.
Context `{Platform}.

Definition handle (ev : Event) : M unit :=
  match ev with
  | DidChange changedUri => onDidChange changedUri
  | DidChangeTextEditorSelection textEditor => onDidChangeTextEditorSelection textEditor
  | DidChangeVisibleTextEditors editors => onDidChangeVisibleTextEditors editors
  end.

(** The world after the events [evs] were handled, in order, from [w]. *)
Definition after (evs : list Event) (w : World) : World :=
  fold_left (λ w ev, final (handle ev w)) evs w.

(** The index is the one a rebuild would compute from the cached listing
    and the path of the tracked source document. *)
Definition index_consistent (w : World) : Prop :=
  AsmDecorator.mappings (self w) = build_from (sourcePath_of w) 0 (listing_of w) ∅.

(** The handles after the callback of [onDidChangeVisibleTextEditors]
    re-associated them, before [updateVisibility] runs. *)
Definition reassociated (editors : list EditorRef) (w : World) : World :=
  let srcEditor := find_showing w editors (AsmDecorator.srcEditor (self w)) in
  let asmEditor := find_showing w editors (AsmDecorator.asmEditor (self w)) in
  with_self (set_asmEditor (default (AsmDecorator.asmEditor (self w)) asmEditor))
    (with_self (set_srcEditor (default (AsmDecorator.srcEditor (self w)) srcEditor)) w).

(** The visibility the callback of [onDidChangeVisibleTextEditors] computes. *)
Definition both_found (editors : list EditorRef) (w : World) : bool :=
  bool_decide (is_Some (find_showing w editors (AsmDecorator.srcEditor (self w))))
  && bool_decide (is_Some (find_showing w editors (AsmDecorator.asmEditor (self w)))).

(** [w'] differs from [w] in the decorations of editors at most. *)
Definition only_decorations (w w' : World) : Prop :=
  self w' = self w ∧
  Host.documents (host w') = Host.documents (host w) ∧
  Host.visibleTextEditors (host w') = Host.visibleTextEditors (host w) ∧
  Host.provideAsmDocument (host w') = Host.provideAsmDocument (host w) ∧
  Host.dimUnusedSourceLines_setting (host w') = Host.dimUnusedSourceLines_setting (host w) ∧
  ∀ editor,
    TextEditor.document (Host.editors (host w') editor)
      = TextEditor.document (Host.editors (host w) editor) ∧
    TextEditor.selection_start_line (Host.editors (host w') editor)
      = TextEditor.selection_start_line (Host.editors (host w) editor).

(** [w'] has the tracked identity of [w], the documents of [w], and its
    tracked editors show the documents the tracked editors of [w] show. *)
Definition tracking_kept (w w' : World) : Prop :=
  AsmDecorator.uri (self w') = AsmDecorator.uri (self w) ∧
  Host.documents (host w') = Host.documents (host w) ∧
  (∀ editor, TextEditor.document (Host.editors (host w') editor)
             = TextEditor.document (Host.editors (host w) editor)) ∧
  TextEditor.document (Host.editors (host w') (AsmDecorator.srcEditor (self w')))
    = TextEditor.document (Host.editors (host w) (AsmDecorator.srcEditor (self w))) ∧
  TextEditor.document (Host.editors (host w') (AsmDecorator.asmEditor (self w')))
    = TextEditor.document (Host.editors (host w) (AsmDecorator.asmEditor (self w))).

(** A call a selection handler may send: a selected-line decoration or a
    reveal. *)
Definition is_selection_call (c : HostCall) : bool :=
  match c with
  | SetDecorations _ selectedLineDecorationType _ => true
  | RevealRange _ _ _ => true
  | _ => false
  end.

(** The line numbers of a list of ranges. *)
Definition range_lines (ranges : list Range.t) : list nat :=
  (λ r, Position.line (Range.start r)) <$> ranges.

End Events.

(** ** A concrete platform and the worked scenario *)

Definition slash : Ascii.ascii := Ascii.ascii_of_nat 47.

Fixpoint drop_slashes (l : list Ascii.ascii) : list Ascii.ascii :=
  match l with
  | c :: l' => if Ascii.eqb c slash then drop_slashes l' else l
  | [] => []
  end.

Fixpoint take_component (l : list Ascii.ascii) : list Ascii.ascii :=
  match l with
  | c :: l' => if Ascii.eqb c slash then [] else c :: take_component l'
  | [] => []
  end.

(** Node's [path.posix.basename] without a suffix argument: trailing
    slashes are dropped, then the last component is kept. *)
Definition posix_basename (p : string) : string :=
  String.string_of_list_ascii
    (rev (take_component (drop_slashes (rev (String.list_ascii_of_string p))))).

(** A canonical text for identities without characters that need escaping. *)
Definition plain_toString (u : Uri.t) : string :=
  Uri.scheme u +:+ "://" +:+ Uri.authority u +:+ Uri.path u
  +:+ "?" +:+ Uri.query u +:+ "#" +:+ Uri.fragment u.

Definition posix : Platform :=
  {| basename := posix_basename; Uri_toString := plain_toString |}.

Definition file_uri (p : string) : Uri.t := Uri.mk "file" "" p "" "".

Definition listing_uri : Uri.t := Uri.mk "disassembly" "" "/proj/a.S" "" "".

Definition ac (n : Z) : AsmLine.t :=
  AsmLine.mk "" (Some (AsmSource.mk (Some "a.c") n)).

Definition scenario_listing : AsmDocument.t :=
  AsmDocument.mk [AsmLine.mk "" None; ac 3; ac 3; ac 10].

(** Editor 0 shows the source [/proj/a.c] (12 lines, cursor on line 2),
    editor 1 the text of the listing (its 4 lines and the empty line after
    the last line break, cursor on line 3); [shown] is the host's set of
    visible editors. *)
Definition scenario_host (shown : list EditorRef) : Host.t :=
  Host.mk
    (λ e, if decide (e = 0%nat) then TextEditor.mk 0%nat 2%nat (λ _, [])
          else TextEditor.mk 1%nat 3%nat (λ _, []))
    (λ d, if decide (d = 0%nat)
          then TextDocument.mk (file_uri "/proj/a.c") (replicate 12 "x")
          else TextDocument.mk listing_uri (replicate 4 "nop" ++ [""]))
    shown
    (λ _, scenario_listing)
    (λ _, None).

Definition scenario (shown : list EditorRef) : World :=
  final (constructor (H := posix) (scenario_host shown) 0%nat 1%nat).

Definition both_shown : World := scenario [0%nat; 1%nat].
Definition source_only : World := scenario [0%nat].

(** The pair of [both_shown] after the listing view lost all but its first
    two lines, the index not yet rebuilt. *)
Definition shrunk_listing_view : World :=
  let h := host both_shown in
  mkWorld
    (Host.mk (Host.editors h)
       (λ d, if decide (d = 1%nat) then TextDocument.mk listing_uri ["nop"; "nop"]
             else Host.documents h d)
       (Host.visibleTextEditors h) (Host.provideAsmDocument h)
       (Host.dimUnusedSourceLines_setting h))
    (self both_shown).

(** The pair with a cached listing whose annotations point outside the
    source document: line 0 (source line -1) and line 40 of 12. *)
Definition stray_annotations : World :=
  final (loadMappings (H := posix)
    (mkWorld (scenario_host [0%nat; 1%nat])
       (AsmDecorator.mk 0%nat 1%nat (AsmDocument.mk [ac 0; ac 40]) true ∅ listing_uri))).

(** ** Properties *)

(** [endsWith] is the suffix test. *)
Lemma endsWith_spec (s suffix : string) :
  endsWith s suffix = true ↔ ∃ before, s = before +:+ suffix.
Proof.
  induction s as [|c s IH]; cbn [endsWith].
  - rewrite orb_false_r, String.eqb_eq. split.
    + intros <-. by exists "".
    + intros (before & Heq). destruct before; cbn in Heq; [done | discriminate].
  - rewrite orb_true_iff, String.eqb_eq, IH. split.
    + intros [<- | (before & ->)]; [by exists "" | by exists (String c before)].
    + intros (before & Heq). destruct before as [|c' before]; cbn in Heq.
      * by left.
      * right. exists before. by injection Heq.
Qed.

(** *** Running computations step by step *)

Lemma prepend_nil {A} (o : Outcome A) : prepend [] o = o.
Proof. by destruct o. Qed.

Lemma prepend_mk {A} calls (w : World) c (r : Fault + A) :
  prepend calls (mkOutcome w c r) = mkOutcome w (calls ++ c) r.
Proof. reflexivity. Qed.

Lemma bind_ret {A B} (a : A) (f : A → M B) w : bind (ret a) f w = f a w.
Proof. unfold bind, ret; cbn. by destruct (f a w). Qed.

Lemma bind_throw {A B} (e : Fault) (f : A → M B) w :
  bind (throw e) f w = mkOutcome w [] (inl e).
Proof. reflexivity. Qed.

Lemma bind_gets {A B} (g : World → A) (f : A → M B) w : bind (gets g) f w = f (g w) w.
Proof. unfold bind, gets; cbn. by destruct (f (g w) w). Qed.

Lemma bind_modify {B} (g : World → World) (f : unit → M B) w :
  bind (modify g) f w = f tt (g w).
Proof. unfold bind, modify; cbn. by destruct (f tt (g w)). Qed.

Lemma bind_emit {B} (c : HostCall) (f : unit → M B) w :
  bind (emit c) f w = prepend [c] (f tt w).
Proof. reflexivity. Qed.

Lemma bind_ok {A B} (m : M A) (f : A → M B) w w1 c a :
  m w = mkOutcome w1 c (inr a) → bind m f w = prepend c (f a w1).
Proof. unfold bind. by intros ->. Qed.

Lemma bind_fault {A B} (m : M A) (f : A → M B) w w1 c e :
  m w = mkOutcome w1 c (inl e) → bind m f w = mkOutcome w1 c (inl e).
Proof. unfold bind. by intros ->. Qed.

Lemma setDecorations_run editor type ranges w :
  setDecorations editor type ranges w
  = mkOutcome (decorate editor type ranges w) [SetDecorations editor type ranges] (inr tt).
Proof. reflexivity. Qed.

Lemma bind_setDecorations {B} editor type ranges (f : unit → M B) w :
  bind (setDecorations editor type ranges) f w
  = prepend [SetDecorations editor type ranges] (f tt (decorate editor type ranges w)).
Proof. reflexivity. Qed.

Lemma bind_lineAt_range {B} editor line (f : Range.t → M B) w :
  bind (lineAt_range editor line) f w
  = match TextDocument.lineAt (document_of w editor) line with
    | inl e => mkOutcome w [] (inl e)
    | inr r => f r w
    end.
Proof.
  unfold bind, lineAt_range, gets, lift; cbn.
  destruct (TextDocument.lineAt (document_of w editor) line) as [e|r]; cbn; [done|].
  by destruct (f r w).
Qed.

Lemma bind_lineCount {B} editor (f : nat → M B) w :
  bind (lineCount editor) f w = f (TextDocument.lineCount (document_of w editor)) w.
Proof. unfold lineCount. by rewrite bind_gets. Qed.

(** A loop whose body neither faults nor touches the state pushes what the
    body yields, in order. *)
Lemma collect_pure {A B} (f : A → M (option B)) (g : A → option B) (w : World) :
  ∀ (l : list A) (acc : list B),
    (∀ x, x ∈ l → f x w = mkOutcome w [] (inr (g x))) →
    collect l f acc w = mkOutcome w [] (inr (acc ++ omap g l)).
Proof.
  induction l as [|x l IH]; intros acc Hf.
  - cbn. unfold ret. by rewrite app_nil_r.
  - cbn [collect]. erewrite bind_ok by (apply Hf; left).
    rewrite prepend_nil, IH by (intros y Hy; apply Hf; by right).
    cbn [omap list_omap]. destruct (g x); [by rewrite <- app_assoc | done].
Qed.

Lemma lineAt_range_at (d : TextDocument.t) (i : nat) :
  TextDocument.lineAt d (Z.of_nat i)
  = match range_at d i with Some r => inr r | None => inl IllegalLine end.
Proof.
  unfold TextDocument.lineAt, range_at.
  destruct (Z.leb_spec 0 (Z.of_nat i)); [|lia].
  rewrite Nat2Z.id. by destruct (TextDocument.text d !! i).
Qed.

Lemma range_at_Some (d : TextDocument.t) (i : nat) :
  (i < TextDocument.lineCount d)%nat → is_Some (range_at d i).
Proof.
  intros Hi. unfold range_at. apply fmap_is_Some, lookup_lt_is_Some_2, Hi.
Qed.

Lemma range_at_None (d : TextDocument.t) (i : nat) :
  (TextDocument.lineCount d ≤ i)%nat → range_at d i = None.
Proof.
  intros Hi. unfold range_at. by rewrite (lookup_ge_None_2 _ _ Hi).
Qed.

Lemma self_decorate editor type ranges w : self (decorate editor type ranges w) = self w.
Proof. reflexivity. Qed.

Lemma document_of_decorate editor type ranges w editor' :
  document_of (decorate editor type ranges w) editor' = document_of w editor'.
Proof.
  unfold document_of, decorate, store_decorations; cbn.
  destruct (decide (editor = editor')) as [<-|Hne].
  - by rewrite fn_lookup_insert.
  - by rewrite fn_lookup_insert_ne.
Qed.

Lemma decorations_decorate_eq editor type ranges w :
  decorations (decorate editor type ranges w) editor type = ranges.
Proof.
  unfold decorations, decorate, store_decorations; cbn.
  rewrite fn_lookup_insert; cbn. by rewrite fn_lookup_insert.
Qed.

Lemma decorations_decorate_ne editor type ranges w editor' type' :
  editor ≠ editor' ∨ type ≠ type' →
  decorations (decorate editor type ranges w) editor' type' = decorations w editor' type'.
Proof.
  intros Hne. unfold decorations, decorate, store_decorations; cbn.
  destruct (decide (editor = editor')) as [<-|He].
  - rewrite fn_lookup_insert; cbn. rewrite fn_lookup_insert_ne; [done|]. by destruct Hne.
  - by rewrite fn_lookup_insert_ne.
Qed.

Section Properties.
Context `{Platform}.

Lemma with_self_mappings_id (w : World) :
  with_self (set_mappings (AsmDecorator.mappings (self w))) w = w.
Proof. destruct w as [h []]; reflexivity. Qed.

Lemma asmLineHasSource_run (l : AsmLine.t) (w : World) :
  asmLineHasSource (Some l) w = mkOutcome w [] (inr (hasSource (sourcePath_of w) l)).
Proof. reflexivity. Qed.

Lemma hasSource_source (p : string) (l : AsmLine.t) :
  hasSource p l = true → ∃ a, AsmLine.source l = Some a.
Proof.
  unfold hasSource. destruct (AsmLine.source l) as [a|]; [eauto | discriminate].
Qed.

(** *** The loop of [loadMappings] computes [build_from] *)

Lemma loadMappings_loop (lines : list AsmLine.t) :
  ∀ (index : nat) (w : World),
    forEach_from index lines (λ line index,
      let! has := asmLineHasSource (Some line) in
      if negb has then ret tt
      else
        let! l := source_line line in
        let sourceLine := l - 1 in
        modify (λ w, with_self (set_mappings
                  (record_mapping sourceLine index (AsmDecorator.mappings (self w)))) w)) w
    = mkOutcome
        (with_self (set_mappings
           (build_from (sourcePath_of w) index lines (AsmDecorator.mappings (self w)))) w)
        [] (inr tt).
Proof.
  induction lines as [|l lines IH]; intros index w.
  - cbn. unfold ret. by rewrite with_self_mappings_id.
  - cbn [forEach_from build_from].
    destruct (hasSource (sourcePath_of w) l) eqn:Hs.
    + destruct (hasSource_source _ _ Hs) as [a Ha]. rewrite Ha.
      erewrite bind_ok; last first.
      { erewrite bind_ok by apply asmLineHasSource_run. rewrite Hs, prepend_nil. cbn [negb].
        unfold source_line. rewrite Ha, bind_ret. reflexivity. }
      rewrite prepend_nil, IH. destruct w as [h []]; reflexivity.
    + erewrite bind_ok; last first.
      { erewrite bind_ok by apply asmLineHasSource_run. rewrite Hs, prepend_nil. reflexivity. }
      rewrite prepend_nil, IH. reflexivity.
Qed.

Lemma loadMappings_run (w : World) :
  loadMappings w
  = mkOutcome
      (with_self (set_mappings (build_from (sourcePath_of w) 0 (listing_of w) ∅)) w)
      [] (inr tt).
Proof.
  unfold loadMappings, forEach. rewrite bind_modify, bind_gets, loadMappings_loop.
  destruct w as [h []]; reflexivity.
Qed.


(** *** What one pass leaves in the map *)

Lemma record_mapping_lookup (s s' : Z) (i : nat) (m : gmap Z (list nat)) :
  record_mapping s i m !! s'
  = if decide (s = s') then Some (default [] (m !! s) ++ [i]) else m !! s'.
Proof.
  unfold record_mapping. rewrite lookup_alter.
  destruct (decide (s = s')) as [<-|Hne].
  - destruct (m !! s) as [b|] eqn:Hb.
    + by rewrite Hb.
    + by rewrite lookup_insert_eq.
  - destruct (m !! s); [done|]. by rewrite lookup_insert_ne.
Qed.

Lemma maps_to_true (p : string) (l : AsmLine.t) (s : Z) :
  maps_to p l s = true ↔
  ∃ a f, AsmLine.source l = Some a ∧ AsmSource.file a = Some f
         ∧ endsWith p (basename f) = true ∧ AsmSource.line a - 1 = s.
Proof.
  unfold maps_to, hasSource. split.
  - destruct (AsmLine.source l) as [a|]; cbn; [|discriminate].
    destruct (AsmSource.file a) as [f|] eqn:Hf; cbn; [|discriminate].
    intros [He Hl%Z.eqb_eq]%andb_true_iff. eauto 10.
  - intros (a & f & -> & Hf & He & Hl). cbn. rewrite Hf. cbn.
    rewrite He. by apply Z.eqb_eq.
Qed.

Lemma build_from_lookup (p : string) (s : Z) (lines : list AsmLine.t) :
  ∀ (index : nat) (m : gmap Z (list nat)),
    build_from p index lines m !! s
    = match m !! s with
      | Some b => Some (b ++ hits p index lines s)
      | None => match hits p index lines s with
                | [] => None
                | new => Some new
                end
      end.
Proof.
  induction lines as [|l lines IH]; intros index m; cbn [build_from hits].
  - destruct (m !! s); [by rewrite app_nil_r | done].
  - rewrite IH. unfold maps_to.
    destruct (hasSource p l); cbn [andb]; [|done].
    destruct (AsmLine.source l) as [a|]; [|done].
    rewrite record_mapping_lookup.
    destruct (Z.eqb_spec (AsmSource.line a - 1) s) as [->|Hne].
    + rewrite decide_True by done.
      destruct (m !! s); cbn [default]; by rewrite <- ?app_assoc.
    + by rewrite decide_False.
Qed.

Lemma elem_of_hits (p : string) (s : Z) (lines : list AsmLine.t) :
  ∀ (index i : nat),
    i ∈ hits p index lines s ↔
    (index ≤ i)%nat ∧ ∃ l, lines !! (i - index)%nat = Some l ∧ maps_to p l s = true.
Proof.
  induction lines as [|l lines IH]; intros index i; cbn [hits].
  - split; [by intros ?%elem_of_nil | by intros (_ & ? & ? & _)].
  - assert (Htail : i ∈ hits p (S index) lines s ↔
              (index < i)%nat ∧ ∃ l', (l :: lines) !! (i - index)%nat = Some l'
                                      ∧ maps_to p l' s = true).
    { rewrite IH. split; intros (Hi & l' & Hl' & Hm); (split; [lia|]); exists l'.
      - replace (i - index)%nat with (S (i - S index)) by lia. done.
      - replace (i - index)%nat with (S (i - S index)) in Hl' by lia. done. }
    destruct (maps_to p l s) eqn:Hl.
    + rewrite elem_of_cons, Htail. split.
      * intros [->|(Hi & l' & Hl' & Hm)].
        -- split; [lia|]. exists l. by rewrite Nat.sub_diag.
        -- split; [lia|]. eauto.
      * intros (Hi & l' & Hl' & Hm).
        destruct (decide (i = index)) as [->|Hne]; [by left|].
        right. split; [lia|]. eauto.
    + rewrite Htail. split.
      * intros (Hi & l' & Hl' & Hm). split; [lia|]. eauto.
      * intros (Hi & l' & Hl' & Hm). split; [|by eauto].
        destruct (decide (i = index)) as [->|Hne]; [|lia].
        rewrite Nat.sub_diag in Hl'. cbn in Hl'. congruence.
Qed.

Lemma hits_sorted (p : string) (s : Z) (lines : list AsmLine.t) :
  ∀ index : nat, StronglySorted lt (hits p index lines s).
Proof.
  induction lines as [|l lines IH]; intros index; cbn [hits]; [constructor|].
  destruct (maps_to p l s); [|apply IH].
  constructor; [apply IH|].
  apply list.Forall_forall. intros i Hi%elem_of_hits. lia.
Qed.

(** The index after a rebuild, bucket by bucket. *)
Lemma loadMappings_lookup (w : World) (s : Z) :
  AsmDecorator.mappings (self (final (loadMappings w))) !! s
  = match hits (sourcePath_of w) 0 (listing_of w) s with
    | [] => None
    | bucket => Some bucket
    end.
Proof.
  rewrite loadMappings_run. cbn. by rewrite build_from_lookup, lookup_empty.
Qed.


(** *** The methods, run *)

Lemma dimUnusedSourceLines_run (w : World) :
  let src := AsmDecorator.srcEditor (self w) in
  let unused := unused_ranges (document_of w src) (AsmDecorator.mappings (self w)) in
  dimUnusedSourceLines w
  = mkOutcome (decorate src unusedLineDecorationType unused w)
      [SetDecorations src unusedLineDecorationType unused] (inr tt).
Proof.
  cbn zeta. unfold dimUnusedSourceLines. rewrite bind_gets, bind_lineCount.
  erewrite bind_ok; last first.
  { apply (collect_pure _ (λ line,
      match AsmDecorator.mappings (self w) !! Z.of_nat line with
      | None => range_at (document_of w (AsmDecorator.srcEditor (self w))) line
      | Some _ => None
      end)).
    intros line Hline%elem_of_seq. rewrite bind_gets.
    destruct (AsmDecorator.mappings (self w) !! Z.of_nat line); [done|].
    rewrite bind_lineAt_range, lineAt_range_at.
    destruct (range_at_Some (document_of w (AsmDecorator.srcEditor (self w))) line) as [r ->];
      [lia | done]. }
  by rewrite prepend_nil, setDecorations_run.
Qed.

Lemma load_run (uri : Uri.t) (w : World) :
  let w1 := reloaded uri w in
  let src := AsmDecorator.srcEditor (self w) in
  let unused := unused_ranges (document_of w src) (AsmDecorator.mappings (self w1)) in
  load uri w
  = if dim_enabled w
    then mkOutcome (decorate src unusedLineDecorationType unused w1)
           [ProvideAsmDocument uri; SetDecorations src unusedLineDecorationType unused]
           (inr tt)
    else mkOutcome w1 [ProvideAsmDocument uri] (inr tt).
Proof.
  cbn zeta. unfold load. rewrite bind_gets, bind_emit, bind_modify.
  erewrite bind_ok by apply loadMappings_run.
  rewrite prepend_nil, !bind_gets.
  change (with_self _ (with_self _ w)) with (reloaded uri w).
  change (default true _ && _) with (dim_enabled w).
  destruct (dim_enabled w); [|done].
  by rewrite dimUnusedSourceLines_run.
Qed.


Lemma srcLineSelected_fault (line : Z) (w : World) (e : Fault) :
  TextDocument.lineAt (document_of w (AsmDecorator.srcEditor (self w))) line = inl e →
  srcLineSelected line w = mkOutcome w [] (inl e).
Proof.
  intros Hline. unfold srcLineSelected.
  by rewrite !bind_gets, bind_lineAt_range, Hline.
Qed.

Lemma srcLineSelected_run (line : Z) (w : World) (srcLineRange : Range.t) :
  let src := AsmDecorator.srcEditor (self w) in
  let asm := AsmDecorator.asmEditor (self w) in
  let asmLinesRanges :=
    match AsmDecorator.mappings (self w) !! line with
    | Some mapped => omap (range_at (document_of w asm)) mapped
    | None => []
    end in
  TextDocument.lineAt (document_of w src) line = inr srcLineRange →
  srcLineSelected line w
  = mkOutcome
      (decorate asm selectedLineDecorationType asmLinesRanges
         (decorate src selectedLineDecorationType [srcLineRange] w))
      (SetDecorations src selectedLineDecorationType [srcLineRange]
       :: SetDecorations asm selectedLineDecorationType asmLinesRanges
       :: match asmLinesRanges with
          | first :: _ => [RevealRange asm first InCenterIfOutsideViewport]
          | [] => []
          end)
      (inr tt).
Proof.
  cbn zeta. intros Hline. unfold srcLineSelected.
  rewrite !bind_gets, bind_lineAt_range, Hline, bind_setDecorations, bind_gets.
  rewrite self_decorate.
  set (w1 := decorate _ _ [srcLineRange] w).
  set (asm := AsmDecorator.asmEditor (self w)).
  erewrite (bind_ok _ _ w1 w1 []
              (match AsmDecorator.mappings (self w) !! line with
               | Some mapped => omap (range_at (document_of w asm)) mapped
               | None => []
               end)); last first.
  { destruct (AsmDecorator.mappings (self w) !! line) as [mapped|]; [|done].
    apply (collect_pure _ (range_at (document_of w asm))).
    intros i _. rewrite bind_lineCount. unfold w1. rewrite document_of_decorate.
    destruct (Nat.leb_spec (TextDocument.lineCount (document_of w asm)) i) as [Hge|Hlt].
    - by rewrite range_at_None.
    - rewrite bind_lineAt_range, document_of_decorate, lineAt_range_at.
      by destruct (range_at_Some (document_of w asm) i Hlt) as [r ->]. }
  rewrite prepend_nil, bind_setDecorations.
  destruct (match AsmDecorator.mappings (self w) !! line with
            | Some mapped => omap (range_at (document_of w asm)) mapped
            | None => []
            end) as [|first rest]; reflexivity.
Qed.

Lemma asmLineSelected_illegal (line : Z) (w : World) (e : Fault) :
  TextDocument.lineAt (document_of w (AsmDecorator.asmEditor (self w))) line = inl e →
  asmLineSelected line w = mkOutcome w [] (inl e).
Proof.
  intros Hline. unfold asmLineSelected.
  by rewrite !bind_gets, bind_lineAt_range, Hline.
Qed.

Lemma asmLineSelected_undefined (line : Z) (w : World) (asmLineRange : Range.t) :
  let asm := AsmDecorator.asmEditor (self w) in
  index_lines (listing_of w) line = None →
  TextDocument.lineAt (document_of w asm) line = inr asmLineRange →
  asmLineSelected line w
  = mkOutcome (decorate asm selectedLineDecorationType [asmLineRange] w)
      [SetDecorations asm selectedLineDecorationType [asmLineRange]]
      (inl UndefinedAccess).
Proof.
  cbn zeta. intros Hnone Hline. unfold asmLineSelected.
  rewrite !bind_gets, bind_lineAt_range, Hline, bind_setDecorations.
  fold (listing_of w). rewrite Hnone. reflexivity.
Qed.

Lemma asmLineSelected_run (line : Z) (w : World) (l : AsmLine.t) (asmLineRange : Range.t) :
  let src := AsmDecorator.srcEditor (self w) in
  let asm := AsmDecorator.asmEditor (self w) in
  let w1 := decorate asm selectedLineDecorationType [asmLineRange] w in
  index_lines (listing_of w) line = Some l →
  TextDocument.lineAt (document_of w asm) line = inr asmLineRange →
  asmLineSelected line w
  = if hasSource (sourcePath_of w) l then
      match AsmLine.source l with
      | Some a =>
          match TextDocument.lineAt (document_of w src) (AsmSource.line a - 1) with
          | inr srcLineRange =>
              mkOutcome (decorate src selectedLineDecorationType [srcLineRange] w1)
                [SetDecorations asm selectedLineDecorationType [asmLineRange];
                 SetDecorations src selectedLineDecorationType [srcLineRange];
                 RevealRange src srcLineRange InCenterIfOutsideViewport]
                (inr tt)
          | inl e =>
              mkOutcome w1 [SetDecorations asm selectedLineDecorationType [asmLineRange]] (inl e)
          end
      | None =>
          mkOutcome w1 [SetDecorations asm selectedLineDecorationType [asmLineRange]]
            (inl UndefinedAccess)
      end
    else
      mkOutcome (decorate src selectedLineDecorationType [] w1)
        [SetDecorations asm selectedLineDecorationType [asmLineRange];
         SetDecorations src selectedLineDecorationType []]
        (inr tt).
Proof.
  cbn zeta. intros Hl Hline. unfold asmLineSelected.
  rewrite !bind_gets, bind_lineAt_range, Hline, bind_setDecorations.
  fold (listing_of w). rewrite Hl.
  erewrite bind_ok by apply asmLineHasSource_run.
  rewrite prepend_nil.
  replace (sourcePath_of (decorate _ _ _ w)) with (sourcePath_of w)
    by (unfold sourcePath_of; by rewrite document_of_decorate).
  destruct (hasSource (sourcePath_of w) l); [|reflexivity].
  unfold source_line. destruct (AsmLine.source l) as [a|]; [|reflexivity].
  rewrite bind_ret, bind_lineAt_range, document_of_decorate. cbn [self decorate].
  destruct (TextDocument.lineAt _ (AsmSource.line a - 1)); reflexivity.
Qed.

End Properties.

(** *** Ranges and the unused-line list *)

Lemma range_at_line (d : TextDocument.t) (i : nat) (r : Range.t) :
  range_at d i = Some r → Position.line (Range.start r) = i.
Proof.
  unfold range_at. destruct (TextDocument.text d !! i); cbn; [|done]. by intros [= <-].
Qed.

Lemma range_at_lookup (d : TextDocument.t) (i : nat) (content : string) :
  TextDocument.text d !! i = Some content →
  range_at d i = Some (TextDocument.lineRange i content).
Proof. unfold range_at. by intros ->. Qed.

Lemma elem_of_unused_ranges (d : TextDocument.t) (m : gmap Z (list nat)) (r : Range.t) :
  r ∈ unused_ranges d m ↔
  ∃ line : nat, range_at d line = Some r ∧ m !! Z.of_nat line = None.
Proof.
  unfold unused_ranges. rewrite list_elem_of_omap. split.
  - intros (line & _ & Hr). exists line.
    destruct (m !! Z.of_nat line); [done | by split].
  - intros (line & Hr & Hm). exists line. rewrite Hm. split; [|done].
    apply elem_of_seq. split; [lia|]. cbn.
    destruct (decide (line < TextDocument.lineCount d)%nat) as [|Hge]; [done|].
    rewrite range_at_None in Hr by lia. done.
Qed.

Section Claims.
Context `{Platform}.

Lemma hits_nil (p : string) (s : Z) (lines : list AsmLine.t) :
  hits p 0 lines s = [] ↔ ∀ i l, lines !! i = Some l → maps_to p l s = false.
Proof.
  split.
  - intros Hnil i l Hl. destruct (maps_to p l s) eqn:Hm; [|done].
    assert (i ∈ hits p 0 lines s) as Hi.
    { apply elem_of_hits. split; [lia|]. rewrite Nat.sub_0_r. eauto. }
    rewrite Hnil in Hi. by apply elem_of_nil in Hi.
  - intros Hno. destruct (hits p 0 lines s) as [|i rest] eqn:Hh; [done|].
    assert (i ∈ hits p 0 lines s) as Hi by (rewrite Hh; left).
    apply elem_of_hits in Hi as (_ & l & Hl & Hm). rewrite Nat.sub_0_r in Hl.
    rewrite (Hno _ _ Hl) in Hm. done.
Qed.

Lemma reloaded_lookup (uri : Uri.t) (w : World) (s : Z) :
  AsmDecorator.mappings (self (reloaded uri w)) !! s
  = match hits (sourcePath_of w) 0 (listing_of (reloaded uri w)) s with
    | [] => None
    | bucket => Some bucket
    end.
Proof. unfold reloaded; cbn. by rewrite build_from_lookup, lookup_empty. Qed.

Lemma load_self (uri : Uri.t) (w : World) :
  self (final (load uri w)) = self (reloaded uri w).
Proof. rewrite load_run. by destruct (dim_enabled w). Qed.

Lemma load_result (uri : Uri.t) (w : World) : result (load uri w) = inr tt.
Proof. rewrite load_run. by destruct (dim_enabled w). Qed.

Lemma load_document_of (uri : Uri.t) (w : World) (editor : EditorRef) :
  document_of (final (load uri w)) editor = document_of w editor.
Proof.
  rewrite load_run. destruct (dim_enabled w); cbn [final]; [|done].
  by rewrite document_of_decorate.
Qed.

Lemma sourcePath_of_decorate editor type ranges w :
  sourcePath_of (decorate editor type ranges w) = sourcePath_of w.
Proof. unfold sourcePath_of. by rewrite document_of_decorate. Qed.

Lemma reloaded_decorate uri editor type ranges w :
  reloaded uri (decorate editor type ranges w) = decorate editor type ranges (reloaded uri w).
Proof. unfold reloaded. by rewrite sourcePath_of_decorate. Qed.

Lemma reloaded_reloaded uri w : reloaded uri (reloaded uri w) = reloaded uri w.
Proof. destruct w as [h []]; reflexivity. Qed.

Lemma dim_enabled_decorate editor type ranges w :
  dim_enabled (decorate editor type ranges w) = dim_enabled w.
Proof. unfold dim_enabled. by rewrite document_of_decorate. Qed.

Lemma dim_enabled_reloaded uri w : dim_enabled (reloaded uri w) = dim_enabled w.
Proof. reflexivity. Qed.

(** *** The index *)

(** C1 (index build correctness).  After [loadMappings], on any listing
    [L] and source path [F], the bucket of source line [s] holds exactly the
    indices [i] whose line [L[i]] carries a source annotation with a file
    whose basename ends [F] and whose line minus 1 is [s]; each bucket is
    strictly ascending.  [s] ranges over all integers, so lines with a
    negative or too large source line are recorded as well. *)
Theorem loadMappings_index (w : World) :
  let L := listing_of w in
  let F := sourcePath_of w in
  let index := AsmDecorator.mappings (self (final (loadMappings w))) in
  result (loadMappings w) = inr tt ∧
  ∀ s : Z,
    (∀ i : nat,
       i ∈ default [] (index !! s) ↔
       ∃ l a f, L !! i = Some l ∧ AsmLine.source l = Some a ∧ AsmSource.file a = Some f
                ∧ endsWith F (basename f) = true ∧ AsmSource.line a - 1 = s)
    ∧ StronglySorted lt (default [] (index !! s)).
Proof.
  cbn zeta. split; [by rewrite loadMappings_run|].
  intros s. rewrite loadMappings_lookup.
  assert (Hb : default [] (match hits (sourcePath_of w) 0 (listing_of w) s with
                           | [] => None
                           | bucket => Some bucket
                           end) = hits (sourcePath_of w) 0 (listing_of w) s)
    by (by destruct (hits _ _ _ _)).
  rewrite Hb. split; [|apply hits_sorted].
  intros i. rewrite elem_of_hits, Nat.sub_0_r. split.
  - intros (_ & l & Hl & (a & f & ?)%maps_to_true). eauto 10.
  - intros (l & a & f & Hl & Hm). split; [lia|]. exists l. split; [done|].
    apply maps_to_true. eauto.
Qed.


(** C10 (non-empty buckets).  After a rebuild, by [loadMappings] alone or
    inside [load], every key of the index has a non-empty bucket; and when
    [load] dims ([dimUnused && this.visible]), a line of the source document
    has its range in the unused-line decoration exactly when no listing line
    maps to it. *)
Theorem buckets_nonempty_dim_unused (uri : Uri.t) (w : World) :
  (∀ s bucket,
     AsmDecorator.mappings (self (final (loadMappings w))) !! s = Some bucket → bucket ≠ []) ∧
  let w' := final (load uri w) in
  let src := AsmDecorator.srcEditor (self w') in
  (∀ s bucket, AsmDecorator.mappings (self w') !! s = Some bucket → bucket ≠ []) ∧
  (dim_enabled w = true →
   ∀ (line : nat) (content : string),
     TextDocument.text (document_of w' src) !! line = Some content →
     (TextDocument.lineRange line content ∈ decorations w' src unusedLineDecorationType
      ↔ ∀ i l, listing_of w' !! i = Some l → maps_to (sourcePath_of w') l (Z.of_nat line) = false)).
Proof.
  split; [|cbn zeta; split].
  - intros s bucket. rewrite loadMappings_lookup.
    destruct (hits _ _ _ _); [done | by intros [= <-]].
  - intros s bucket. rewrite load_self, reloaded_lookup.
    destruct (hits _ _ _ _); [done | by intros [= <-]].
  - intros Hdim line content Hline.
    rewrite load_document_of in Hline. revert Hline.
    rewrite load_self. unfold listing_of, sourcePath_of.
    rewrite load_document_of, load_self, load_run, Hdim. cbn [final].
    change (AsmDecorator.srcEditor (self (reloaded uri w)))
      with (AsmDecorator.srcEditor (self w)).
    fold (sourcePath_of w). fold (listing_of (reloaded uri w)).
    intros Hline. rewrite decorations_decorate_eq, elem_of_unused_ranges, <- hits_nil.
    split.
    + intros (line' & Hr & Hm).
      apply range_at_line in Hr. cbn in Hr. subst line'.
      rewrite reloaded_lookup in Hm. by destruct (hits _ _ _ _).
    + intros Hnil. exists line. split; [by apply range_at_lookup|].
      by rewrite reloaded_lookup, Hnil.
Qed.

(** C7 (reload idempotence).  A second [load], right after a first one on
    the same provider and source view, succeeds like the first, leaves the
    same index, sends the host the same calls (so the same unused-line
    ranges) and leaves every decoration as the first left it. *)
Theorem load_idempotent (uri : Uri.t) (w : World) :
  let first := load uri w in
  let second := load uri (final first) in
  result first = inr tt ∧ result second = inr tt ∧
  AsmDecorator.mappings (self (final second)) = AsmDecorator.mappings (self (final first)) ∧
  emitted second = emitted first ∧
  ∀ editor type,
    decorations (final second) editor type = decorations (final first) editor type.
Proof.
  cbn zeta. rewrite !load_result, !load_self.
  split; [done|]. split; [done|].
  rewrite (load_run uri w). cbn zeta.
  destruct (dim_enabled w) eqn:Hdim; cbn [final emitted].
  - rewrite load_run. cbn zeta.
    rewrite dim_enabled_decorate, dim_enabled_reloaded, Hdim, !reloaded_decorate,
      reloaded_reloaded, !self_decorate, document_of_decorate.
    cbn [final emitted].
    change (AsmDecorator.srcEditor (self (reloaded uri w)))
      with (AsmDecorator.srcEditor (self w)).
    change (document_of (reloaded uri w)) with (document_of w).
    split; [done|]. split; [done|].
    intros editor type.
    destruct (decide (AsmDecorator.srcEditor (self w) = editor
                      ∧ unusedLineDecorationType = type)) as [[<- <-]|Hne].
    + by rewrite !decorations_decorate_eq.
    + apply decorations_decorate_ne.
      destruct (decide (AsmDecorator.srcEditor (self w) = editor)); [right|left]; naive_solver.
  - rewrite load_run. cbn zeta. rewrite dim_enabled_reloaded, Hdim, reloaded_reloaded.
    done.
Qed.


(** *** Provider change and visibility *)

(** C6 (provider-change gating).  The change callback reloads exactly when
    the changed identity and the tracked one have the same text: then it is
    [load] (the listing is fetched and the index rebuilt from it, whatever
    [visible] is), otherwise nothing happens.  The unused-line decoration is
    applied on that reload exactly when the setting is on and the pair is
    visible. *)
Theorem onDidChange_gating (changedUri : Uri.t) (w : World) :
  let uri := AsmDecorator.uri (self w) in
  let src := AsmDecorator.srcEditor (self w) in
  let o := onDidChange changedUri w in
  let relevant := Uri_toString changedUri = Uri_toString uri in
  (relevant → o = load uri w) ∧
  (¬ relevant → o = mkOutcome w [] (inr tt)) ∧
  (ProvideAsmDocument uri ∈ emitted o ↔ relevant) ∧
  (relevant →
     AsmDecorator.document (self (final o)) = Host.provideAsmDocument (host w) uri ∧
     ∀ s, AsmDecorator.mappings (self (final o)) !! s
          = match hits (sourcePath_of w) 0
                    (AsmDocument.lines (Host.provideAsmDocument (host w) uri)) s with
            | [] => None
            | bucket => Some bucket
            end) ∧
  ((∃ ranges, SetDecorations src unusedLineDecorationType ranges ∈ emitted o)
   ↔ relevant
     ∧ default true (Host.dimUnusedSourceLines_setting (host w)
                       (TextDocument.uri (document_of w src))) = true
     ∧ AsmDecorator.visible (self w) = true).
Proof.
  cbn zeta. unfold onDidChange. rewrite bind_gets.
  destruct (decide (Uri_toString changedUri = Uri_toString (AsmDecorator.uri (self w))))
    as [Heq|Hne].
  - split; [done|]. split; [done|].
    split.
    { split; [done|]. intros _. rewrite load_run.
      destruct (dim_enabled w); cbn [emitted]; left. }
    split.
    { intros _. rewrite load_self. split; [done|]. intros s. apply reloaded_lookup. }
    rewrite load_run. cbn zeta.
    destruct (dim_enabled w) eqn:Hdim; cbn [emitted].
    + unfold dim_enabled in Hdim. apply andb_true_iff in Hdim. split; [done|].
      intros _. eexists. right. left.
    + split; [|intros (_ & Hs & Hv)].
      * intros (ranges & Hin). apply list_elem_of_singleton in Hin. done.
      * unfold dim_enabled in Hdim. rewrite Hs, Hv in Hdim. done.
  - split; [done|]. split; [done|]. unfold ret; cbn [emitted].
    split; [split; [by intros ?%elem_of_nil | done]|].
    split; [done|].
    split; [by intros (? & ?%elem_of_nil) | by intros (? & _)].
Qed.

(** C8 (visibility no-op).  [updateVisibility] called with the stored
    visibility returns at once: same world, no host call.  So a change of
    the visible editors whose recomputed visibility equals the stored one
    fetches no listing, applies and clears no decoration, and leaves the
    host, [visible], the index and the listing as they were. *)
Theorem visibility_noop (uri : Uri.t) (editors : list EditorRef) (w : World) :
  (∀ visible, visible = AsmDecorator.visible (self w) →
     updateVisibility uri visible w = mkOutcome w [] (inr tt)) ∧
  (bool_decide (is_Some (find_showing w editors (AsmDecorator.srcEditor (self w))))
   && bool_decide (is_Some (find_showing w editors (AsmDecorator.asmEditor (self w))))
   = AsmDecorator.visible (self w) →
   let o := onDidChangeVisibleTextEditors editors w in
   emitted o = [] ∧ result o = inr tt ∧ host (final o) = host w ∧
   AsmDecorator.visible (self (final o)) = AsmDecorator.visible (self w) ∧
   AsmDecorator.mappings (self (final o)) = AsmDecorator.mappings (self w) ∧
   AsmDecorator.document (self (final o)) = AsmDecorator.document (self w)).
Proof.
  split.
  - intros visible ->. unfold updateVisibility. rewrite bind_gets.
    by rewrite decide_True.
  - cbn zeta. intros Hsame. unfold onDidChangeVisibleTextEditors.
    rewrite !bind_gets, !bind_modify, bind_gets.
    unfold updateVisibility. rewrite bind_gets. cbn [self with_self set_asmEditor
      set_srcEditor AsmDecorator.visible].
    rewrite decide_True by done. done.
Qed.


(** *** Selection *)

(** C4 (no mapping clears the listing view).  Selecting a line [s] of the
    source view that has no bucket replaces the listing view's selected
    decoration by the empty list and reveals nothing: the two
    [setDecorations] calls are all the handler sends. *)
Theorem unmapped_source_line_clears_listing (s : Z) (srcLineRange : Range.t) (w : World) :
  let src := AsmDecorator.srcEditor (self w) in
  let asm := AsmDecorator.asmEditor (self w) in
  let o := srcLineSelected s w in
  TextDocument.lineAt (document_of w src) s = inr srcLineRange →
  AsmDecorator.mappings (self w) !! s = None →
  result o = inr tt ∧
  decorations (final o) asm selectedLineDecorationType = [] ∧
  emitted o = [SetDecorations src selectedLineDecorationType [srcLineRange];
               SetDecorations asm selectedLineDecorationType []] ∧
  ∀ c, c ∈ emitted o → is_RevealRange_of asm c = false.
Proof.
  cbn zeta. intros Hline Hnone.
  rewrite (srcLineSelected_run s w srcLineRange Hline). cbn zeta. rewrite Hnone.
  cbn [result final emitted].
  split; [done|]. split; [apply decorations_decorate_eq|]. split; [done|].
  intros c [->|[->|[]%elem_of_nil]%elem_of_cons]%elem_of_cons; reflexivity.
Qed.

(** C5 (stale-index tolerance).  Selecting a line [s] of the source view
    with bucket [bucket] does not fault; the listing view's selected
    decoration is set, in one call, to the ranges of the entries that are
    lines of the listing view, in bucket order.  An entry at or beyond the
    view's line count yields no range, and every entry that is a line of the
    view has its range applied. *)
Theorem stale_entries_skipped (s : Z) (srcLineRange : Range.t) (bucket : list nat) (w : World) :
  let src := AsmDecorator.srcEditor (self w) in
  let asm := AsmDecorator.asmEditor (self w) in
  let listingView := document_of w asm in
  let o := srcLineSelected s w in
  let applied := decorations (final o) asm selectedLineDecorationType in
  TextDocument.lineAt (document_of w src) s = inr srcLineRange →
  AsmDecorator.mappings (self w) !! s = Some bucket →
  result o = inr tt ∧
  applied = omap (range_at listingView) bucket ∧
  SetDecorations asm selectedLineDecorationType applied ∈ emitted o ∧
  (∀ i, (TextDocument.lineCount listingView ≤ i)%nat →
        range_at listingView i = None ∧
        ∀ r, r ∈ applied → Position.line (Range.start r) ≠ i) ∧
  (∀ i content, i ∈ bucket → TextDocument.text listingView !! i = Some content →
        range_at listingView i = Some (TextDocument.lineRange i content) ∧
        TextDocument.lineRange i content ∈ applied).
Proof.
  cbn zeta. intros Hline Hbucket.
  rewrite (srcLineSelected_run s w srcLineRange Hline). cbn zeta. rewrite Hbucket.
  cbn [result final emitted]. rewrite decorations_decorate_eq.
  split; [done|]. split; [done|]. split; [right; left|].
  split.
  - intros i Hge. split; [by apply range_at_None|].
    intros r (j & Hj & Hr)%list_elem_of_omap Hi.
    apply range_at_line in Hr as Hrj. rewrite Hi in Hrj. subst j.
    rewrite range_at_None in Hr by done. done.
  - intros i content Hi Hc. split; [by apply range_at_lookup|].
    apply list_elem_of_omap. exists i. split; [done | by apply range_at_lookup].
Qed.

(** C3 (round trip).  Let source line [s] have bucket [i0 :: rest], let
    listing line [i0] still map to [s] against the current source view, and
    let [s] and [i0] be lines of their views.  Selecting [s] in the source
    view and then [i0] in the listing view does not fault and ends with the
    range of line [s] as the source view's selected decoration. *)
Theorem round_trip (s : Z) (i0 : nat) (rest : list nat) (l : AsmLine.t)
    (srcLineRange asmLineRange : Range.t) (w : World) :
  let src := AsmDecorator.srcEditor (self w) in
  let asm := AsmDecorator.asmEditor (self w) in
  let o := (srcLineSelected s ;;; asmLineSelected (Z.of_nat i0)) w in
  AsmDecorator.mappings (self w) !! s = Some (i0 :: rest) →
  listing_of w !! i0 = Some l →
  maps_to (sourcePath_of w) l s = true →
  TextDocument.lineAt (document_of w src) s = inr srcLineRange →
  TextDocument.lineAt (document_of w asm) (Z.of_nat i0) = inr asmLineRange →
  result o = inr tt ∧
  decorations (final o) src selectedLineDecorationType = [srcLineRange].
Proof.
  cbn zeta. intros Hbucket Hl Hmaps Hsrc Hasm.
  erewrite bind_ok by apply (srcLineSelected_run s w srcLineRange Hsrc).
  set (w1 := decorate _ _ _ (decorate _ _ _ w)).
  assert (Hdoc : ∀ editor, document_of w1 editor = document_of w editor)
    by (intros editor; unfold w1; by rewrite !document_of_decorate).
  assert (Hl1 : index_lines (listing_of w1) (Z.of_nat i0) = Some l).
  { unfold index_lines. destruct (Z.leb_spec 0 (Z.of_nat i0)); [|lia].
    by rewrite Nat2Z.id. }
  assert (Hasm1 : TextDocument.lineAt
            (document_of w1 (AsmDecorator.asmEditor (self w1))) (Z.of_nat i0)
            = inr asmLineRange) by (by rewrite Hdoc).
  rewrite (asmLineSelected_run (Z.of_nat i0) w1 l asmLineRange Hl1 Hasm1).
  cbn zeta. replace (sourcePath_of w1) with (sourcePath_of w)
    by (unfold sourcePath_of; by rewrite Hdoc).
  unfold maps_to in Hmaps. apply andb_true_iff in Hmaps as [Hhas Hline].
  rewrite Hhas. destruct (AsmLine.source l) as [a|]; [|done].
  apply Z.eqb_eq in Hline. rewrite Hline, Hdoc.
  change (AsmDecorator.srcEditor (self w1)) with (AsmDecorator.srcEditor (self w)).
  rewrite Hsrc. cbn [prepend result final]. split; [done|].
  apply decorations_decorate_eq.
Qed.

(** C9 (listing-selection bounds).  [asmLineSelected] reads
    [this.document.lines[line]] unchecked: when it completes, [line] indexes
    the cached listing; for [line] at or beyond the listing's length it
    always faults, and when the listing view has such a line the fault is
    the read of [source] on [undefined]. *)
Theorem asmLineSelected_bounds (line : Z) (w : World) :
  (result (asmLineSelected line w) = inr tt →
   0 ≤ line < Z.of_nat (length (listing_of w))) ∧
  (Z.of_nat (length (listing_of w)) ≤ line →
   (∃ e, result (asmLineSelected line w) = inl e) ∧
   ∀ asmLineRange,
     TextDocument.lineAt (document_of w (AsmDecorator.asmEditor (self w))) line
       = inr asmLineRange →
     result (asmLineSelected line w) = inl UndefinedAccess).
Proof.
  assert (Hout : ¬ 0 ≤ line < Z.of_nat (length (listing_of w)) →
                 index_lines (listing_of w) line = None).
  { intros Hout. unfold index_lines. destruct (Z.leb_spec 0 line); [|done].
    apply lookup_ge_None_2. lia. }
  assert (Hfault : index_lines (listing_of w) line = None →
            (∃ e, result (asmLineSelected line w) = inl e) ∧
            ∀ asmLineRange,
              TextDocument.lineAt (document_of w (AsmDecorator.asmEditor (self w))) line
                = inr asmLineRange →
              result (asmLineSelected line w) = inl UndefinedAccess).
  { intros Hnone.
    destruct (TextDocument.lineAt (document_of w (AsmDecorator.asmEditor (self w))) line)
      as [e|r] eqn:Hline.
    - rewrite (asmLineSelected_illegal line w e Hline). split; [by eexists | done].
    - rewrite (asmLineSelected_undefined line w r Hnone Hline). split; [by eexists | done]. }
  split.
  - intros Hok.
    destruct (decide (0 ≤ line < Z.of_nat (length (listing_of w)))) as [|Hno]; [done|].
    destruct (Hfault (Hout Hno)) as [[e He] _]. congruence.
  - intros Hge. apply Hfault, Hout. lia.
Qed.

End Claims.

(** ** The worked scenario, and the theorems at concrete worlds *)

Example scenario_index :
  map_to_list (AsmDecorator.mappings (self both_shown)) = [(9, [3%nat]); (2, [1%nat; 2%nat])].
Proof. vm_compute. reflexivity. Qed.

Example scenario_unused :
  decorations both_shown 0%nat unusedLineDecorationType
  = (λ line, TextDocument.lineRange line "x") <$> [0; 1; 3; 4; 5; 6; 7; 8; 10; 11]%nat.
Proof. vm_compute. reflexivity. Qed.

Example scenario_select_source_2 :
  decorations (final (srcLineSelected 2 both_shown)) 1%nat selectedLineDecorationType
  = [TextDocument.lineRange 1 "nop"; TextDocument.lineRange 2 "nop"].
Proof. vm_compute. reflexivity. Qed.

Example scenario_select_listing_3 :
  decorations (final (asmLineSelected (H := posix) 3 both_shown)) 0%nat
    selectedLineDecorationType
  = [TextDocument.lineRange 9 "x"].
Proof. vm_compute. reflexivity. Qed.

Example scenario_select_source_5 :
  decorations (final (srcLineSelected 5 (final (srcLineSelected 2 both_shown)))) 1%nat
    selectedLineDecorationType
  = [].
Proof. vm_compute. reflexivity. Qed.

(** A listing line annotated with line 0 is recorded under source line -1. *)
Example negative_source_line_recorded :
  let w := mkWorld (scenario_host [])
             (AsmDecorator.mk 0%nat 1%nat (AsmDocument.mk [ac 0; ac 40]) false ∅
                (file_uri "/proj/a.S")) in
  map_to_list (AsmDecorator.mappings (self (final (loadMappings (H := posix) w))))
  = [(-1, [0%nat]); (39, [1%nat])].
Proof. vm_compute. reflexivity. Qed.

(** The callback of [onDidChangeVisibleTextEditors] re-associates the editor
    handles before it calls [updateVisibility]: here the listing document is
    found in editor 7, visibility stays [true], nothing is sent to the host. *)
Example handles_follow_documents :
  let o := onDidChangeVisibleTextEditors (H := posix) [0; 7]%nat both_shown in
  AsmDecorator.asmEditor (self both_shown) = 1%nat ∧
  AsmDecorator.asmEditor (self (final o)) = 7%nat ∧
  AsmDecorator.visible (self (final o)) = true ∧
  emitted o = [].
Proof. vm_compute. repeat split; reflexivity. Qed.

(** The selection handlers do not read [visible]: a selected line of the
    source view is decorated in every world. *)
Lemma srcLineSelected_decorates (line : Z) (srcLineRange : Range.t) (w : World) :
  TextDocument.lineAt (document_of w (AsmDecorator.srcEditor (self w))) line
    = inr srcLineRange →
  SetDecorations (AsmDecorator.srcEditor (self w)) selectedLineDecorationType [srcLineRange]
    ∈ emitted (srcLineSelected line w).
Proof.
  intros Hline. rewrite (srcLineSelected_run line w srcLineRange Hline). left.
Qed.

(** C2: the pair is hidden (only the source editor is shown when the
    decorator is constructed), a selection change arrives from the source
    editor, and decorations are applied to both editors. *)
Theorem hidden_selection_decorates :
  AsmDecorator.visible (self source_only) = false ∧
  result (onDidChangeTextEditorSelection (H := posix) 0%nat source_only) = inr tt ∧
  emitted (onDidChangeTextEditorSelection (H := posix) 0%nat source_only)
  = [SetDecorations 0%nat selectedLineDecorationType [TextDocument.lineRange 2 "x"];
     SetDecorations 1%nat selectedLineDecorationType
       [TextDocument.lineRange 1 "nop"; TextDocument.lineRange 2 "nop"];
     RevealRange 1%nat (TextDocument.lineRange 1 "nop") InCenterIfOutsideViewport].
Proof. vm_compute. repeat split; reflexivity. Qed.

(** *** The theorems at the scenario *)

Lemma round_trip_witness :
  AsmDecorator.mappings (self both_shown) !! 2 = Some [1; 2]%nat ∧
  listing_of both_shown !! 1%nat = Some (ac 3) ∧
  maps_to (H := posix) (sourcePath_of both_shown) (ac 3) 2 = true ∧
  result ((srcLineSelected 2 ;;; asmLineSelected (H := posix) 1) both_shown) = inr tt ∧
  decorations (final ((srcLineSelected 2 ;;; asmLineSelected (H := posix) 1) both_shown))
    0%nat selectedLineDecorationType
  = [TextDocument.lineRange 2 "x"].
Proof.
  split; [vm_compute; reflexivity|].
  split; [vm_compute; reflexivity|].
  split; [vm_compute; reflexivity|].
  apply (round_trip (H := posix) 2 1 [2%nat] (ac 3)
           (TextDocument.lineRange 2 "x") (TextDocument.lineRange 1 "nop") both_shown);
    vm_compute; reflexivity.
Defined.

Lemma unmapped_source_line_clears_listing_witness :
  AsmDecorator.mappings (self both_shown) !! 5 = None ∧
  decorations (final (srcLineSelected 5 both_shown)) 1%nat selectedLineDecorationType = [].
Proof.
  split; [vm_compute; reflexivity|].
  apply (unmapped_source_line_clears_listing 5 (TextDocument.lineRange 5 "x") both_shown);
    vm_compute; reflexivity.
Defined.

Lemma stale_entries_skipped_witness :
  AsmDecorator.mappings (self shrunk_listing_view) !! 2 = Some [1; 2]%nat ∧
  TextDocument.lineCount (document_of shrunk_listing_view 1%nat) = 2%nat ∧
  result (srcLineSelected 2 shrunk_listing_view) = inr tt ∧
  decorations (final (srcLineSelected 2 shrunk_listing_view)) 1%nat selectedLineDecorationType
  = [TextDocument.lineRange 1 "nop"].
Proof.
  split; [vm_compute; reflexivity|].
  split; [vm_compute; reflexivity|].
  destruct (stale_entries_skipped 2 (TextDocument.lineRange 2 "x") [1; 2]%nat
              shrunk_listing_view) as (Hok & Happlied & _);
    [vm_compute; reflexivity | vm_compute; reflexivity |].
  split; [exact Hok | exact Happlied].
Defined.

Lemma asmLineSelected_bounds_witness :
  Z.of_nat (length (listing_of both_shown)) ≤ 4 ∧
  TextDocument.lineAt (document_of both_shown 1%nat) 4 = inr (TextDocument.lineRange 4 "") ∧
  result (asmLineSelected (H := posix) 4 both_shown) = inl UndefinedAccess.
Proof.
  split; [vm_compute; discriminate|].
  split; [vm_compute; reflexivity|].
  destruct (asmLineSelected_bounds (H := posix) 4 both_shown) as [_ Hge].
  destruct Hge as [_ Hundef]; [vm_compute; discriminate|].
  apply (Hundef (TextDocument.lineRange 4 "")). vm_compute; reflexivity.
Defined.

Lemma visibility_noop_witness :
  bool_decide (is_Some (find_showing both_shown [0; 1]%nat 0%nat))
  && bool_decide (is_Some (find_showing both_shown [0; 1]%nat 1%nat))
  = AsmDecorator.visible (self both_shown) ∧
  updateVisibility (H := posix) listing_uri true both_shown = mkOutcome both_shown [] (inr tt) ∧
  emitted (onDidChangeVisibleTextEditors (H := posix) [0; 1]%nat both_shown) = [].
Proof.
  split; [vm_compute; reflexivity|].
  destruct (visibility_noop (H := posix) listing_uri [0; 1]%nat both_shown) as [Hupd Hcb].
  split; [apply Hupd; vm_compute; reflexivity|].
  apply Hcb. vm_compute; reflexivity.
Defined.

Lemma buckets_nonempty_dim_unused_witness :
  dim_enabled both_shown = true ∧
  TextDocument.text (document_of both_shown 0%nat) !! 5%nat = Some "x" ∧
  (TextDocument.lineRange 5 "x"
     ∈ decorations (final (load (H := posix) listing_uri both_shown)) 0%nat
         unusedLineDecorationType
   ↔ ∀ i l, listing_of (final (load (H := posix) listing_uri both_shown)) !! i = Some l →
            maps_to (H := posix)
              (sourcePath_of (final (load (H := posix) listing_uri both_shown))) l 5 = false).
Proof.
  split; [vm_compute; reflexivity|].
  split; [vm_compute; reflexivity|].
  destruct (buckets_nonempty_dim_unused (H := posix) listing_uri both_shown) as (_ & _ & Hdim).
  apply (Hdim eq_refl 5%nat "x"). vm_compute; reflexivity.
Defined.

Lemma onDidChange_gating_witness :
  Uri_toString (Platform := posix) listing_uri
  = Uri_toString (Platform := posix) (AsmDecorator.uri (self both_shown)) ∧
  onDidChange (H := posix) listing_uri both_shown = load (H := posix) listing_uri both_shown ∧
  file_uri "/proj/a.c" ≠ listing_uri ∧
  onDidChange (H := posix) (file_uri "/proj/a.c") both_shown = mkOutcome both_shown [] (inr tt).
Proof.
  split; [vm_compute; reflexivity|].
  destruct (onDidChange_gating (H := posix) listing_uri both_shown) as (Hrel & _).
  split; [apply Hrel; vm_compute; reflexivity|].
  split; [discriminate|].
  destruct (onDidChange_gating (H := posix) (file_uri "/proj/a.c") both_shown)
    as (_ & Hirr & _).
  apply Hirr. vm_compute. discriminate.
Defined.

(** ** Further properties of the methods *)

(** *** Frames *)

Lemma only_decorations_refl (w : World) : only_decorations w w.
Proof. by repeat split. Qed.

Lemma only_decorations_trans (w1 w2 w3 : World) :
  only_decorations w1 w2 → only_decorations w2 w3 → only_decorations w1 w3.
Proof.
  intros (Hs & Hd & Hv & Hp & Hc & He) (Hs' & Hd' & Hv' & Hp' & Hc' & He').
  repeat split; try congruence.
  - destruct (He' editor) as [-> _]. apply He.
  - destruct (He' editor) as [_ ->]. apply He.
Qed.

Lemma only_decorations_decorate editor type ranges (w : World) :
  only_decorations w (decorate editor type ranges w).
Proof.
  do 5 (split; [done|]). intros editor'.
  unfold decorate, store_decorations; cbn.
  destruct (decide (editor = editor')) as [<-|Hne];
    [by rewrite fn_lookup_insert | by rewrite fn_lookup_insert_ne].
Qed.

Lemma only_decorations_document_of (w w' : World) (editor : EditorRef) :
  only_decorations w w' → document_of w' editor = document_of w editor.
Proof.
  intros (_ & Hd & _ & _ & _ & He). unfold document_of.
  destruct (He editor) as [-> _]. by rewrite Hd.
Qed.

Lemma lineAt_out_of_range (d : TextDocument.t) (line : Z) :
  ¬ (0 ≤ line < Z.of_nat (TextDocument.lineCount d)) →
  TextDocument.lineAt d line = inl IllegalLine.
Proof.
  intros Hout. unfold TextDocument.lineAt.
  destruct (Z.leb_spec 0 line); [|done].
  rewrite (lookup_ge_None_2 (TextDocument.text d) (Z.to_nat line)); [done|].
  unfold TextDocument.lineCount in Hout. lia.
Qed.

Lemma lineAt_in_range (d : TextDocument.t) (line : Z) :
  0 ≤ line < Z.of_nat (TextDocument.lineCount d) →
  ∃ content, TextDocument.text d !! Z.to_nat line = Some content ∧
    TextDocument.lineAt d line = inr (TextDocument.lineRange (Z.to_nat line) content).
Proof.
  intros Hin. unfold TextDocument.lineAt.
  destruct (Z.leb_spec 0 line); [|lia].
  destruct (lookup_lt_is_Some_2 (TextDocument.text d) (Z.to_nat line)) as [content Hc].
  { unfold TextDocument.lineCount in Hin. lia. }
  exists content. by rewrite Hc.
Qed.

Lemma lineAt_fault (d : TextDocument.t) (line : Z) (e : Fault) :
  TextDocument.lineAt d line = inl e → e = IllegalLine.
Proof.
  unfold TextDocument.lineAt. destruct (0 <=? line); [|congruence].
  destruct (TextDocument.text d !! Z.to_nat line); congruence.
Qed.

Lemma tracking_kept_refl (w : World) : tracking_kept w w.
Proof. by repeat split. Qed.

Lemma tracking_kept_trans (w1 w2 w3 : World) :
  tracking_kept w1 w2 → tracking_kept w2 w3 → tracking_kept w1 w3.
Proof.
  intros (Hu & Hd & He & Hs & Ha) (Hu' & Hd' & He' & Hs' & Ha').
  repeat split; try congruence; intros editor; by rewrite He'.
Qed.

Lemma only_decorations_tracking_kept (w w' : World) :
  only_decorations w w' → tracking_kept w w'.
Proof.
  intros (Hs & Hd & _ & _ & _ & He). unfold tracking_kept. rewrite Hs.
  repeat split; try done; try apply He.
Qed.

Lemma decorations_decorate editor type ranges w editor' type' :
  decorations (decorate editor type ranges w) editor' type'
  = if decide (editor = editor' ∧ type = type') then ranges
    else decorations w editor' type'.
Proof.
  destruct (decide (editor = editor' ∧ type = type')) as [[<- <-]|Hne].
  - apply decorations_decorate_eq.
  - apply decorations_decorate_ne.
    destruct (decide (editor = editor')); [right|left]; naive_solver.
Qed.

Lemma StronglySorted_lt_NoDup (l : list nat) : StronglySorted lt l → NoDup l.
Proof.
  induction 1 as [|i l _ IH Hall]; constructor; [|done].
  intros Hin. rewrite list.Forall_forall in Hall. specialize (Hall _ Hin). lia.
Qed.

Section Extras.
Context `{Platform}.

Lemma updateVisibility_run (uri : Uri.t) (visible : bool) (w : World) :
  let src := AsmDecorator.srcEditor (self w) in
  let asm := AsmDecorator.asmEditor (self w) in
  updateVisibility uri visible w
  = if decide (visible = AsmDecorator.visible (self w)) then mkOutcome w [] (inr tt)
    else if visible then load uri (with_self (set_visible true) w)
    else mkOutcome
           (decorate src unusedLineDecorationType []
              (decorate src selectedLineDecorationType []
                 (decorate asm selectedLineDecorationType []
                    (with_self (set_visible false) w))))
           [SetDecorations asm selectedLineDecorationType [];
            SetDecorations src selectedLineDecorationType [];
            SetDecorations src unusedLineDecorationType []]
           (inr tt).
Proof.
  cbn zeta. unfold updateVisibility. rewrite bind_gets.
  destruct (decide (visible = AsmDecorator.visible (self w))); [done|].
  rewrite bind_modify. destruct visible; [done|].
  rewrite !bind_gets, !bind_setDecorations, setDecorations_run. reflexivity.
Qed.

Lemma onDidChangeVisibleTextEditors_run (editors : list EditorRef) (w : World) :
  onDidChangeVisibleTextEditors editors w
  = updateVisibility (AsmDecorator.uri (self w)) (both_found editors w)
      (reassociated editors w).
Proof.
  unfold onDidChangeVisibleTextEditors. by rewrite !bind_gets, !bind_modify, bind_gets.
Qed.

Lemma updateSelection_run (editor : EditorRef) (w : World) :
  let src := AsmDecorator.srcEditor (self w) in
  let asm := AsmDecorator.asmEditor (self w) in
  updateSelection editor w
  = if decide (editor = src) then
      srcLineSelected
        (Z.of_nat (TextEditor.selection_start_line (Host.editors (host w) src))) w
    else if decide (editor = asm) then
      asmLineSelected
        (Z.of_nat (TextEditor.selection_start_line (Host.editors (host w) asm))) w
    else mkOutcome w [] (inr tt).
Proof.
  cbn zeta. unfold updateSelection. rewrite !bind_gets.
  destruct (decide (editor = _)); [by rewrite bind_gets|].
  destruct (decide (editor = _)); [by rewrite bind_gets|]. done.
Qed.

(** What a selection handler leaves behind, whatever path it takes. *)
Lemma srcLineSelected_frame (line : Z) (w : World) :
  only_decorations w (final (srcLineSelected line w)) ∧
  Forall (λ c, is_selection_call c = true) (emitted (srcLineSelected line w)) ∧
  ∀ editor, decorations (final (srcLineSelected line w)) editor unusedLineDecorationType
            = decorations w editor unusedLineDecorationType.
Proof.
  destruct (TextDocument.lineAt (document_of w (AsmDecorator.srcEditor (self w))) line)
    as [e|r] eqn:Hline.
  - rewrite (srcLineSelected_fault line w e Hline). cbn.
    split; [apply only_decorations_refl|]. by split; [constructor|].
  - rewrite (srcLineSelected_run line w r Hline). cbn zeta. cbn [final emitted].
    split; [|split].
    + eapply only_decorations_trans; apply only_decorations_decorate.
    + repeat constructor. by destruct (match _ !! line with Some _ => _ | None => _ end);
        repeat constructor.
    + intros editor. by rewrite !decorations_decorate_ne by (right; done).
Qed.

Lemma asmLineSelected_frame (line : Z) (w : World) :
  only_decorations w (final (asmLineSelected line w)) ∧
  Forall (λ c, is_selection_call c = true) (emitted (asmLineSelected line w)) ∧
  ∀ editor, decorations (final (asmLineSelected line w)) editor unusedLineDecorationType
            = decorations w editor unusedLineDecorationType.
Proof.
  destruct (TextDocument.lineAt (document_of w (AsmDecorator.asmEditor (self w))) line)
    as [e|r] eqn:Hline.
  { rewrite (asmLineSelected_illegal line w e Hline). cbn.
    split; [apply only_decorations_refl|]. by split; [constructor|]. }
  destruct (index_lines (listing_of w) line) as [l|] eqn:Hl.
  - rewrite (asmLineSelected_run line w l r Hl Hline). cbn zeta.
    destruct (hasSource (sourcePath_of w) l);
      [destruct (AsmLine.source l) as [a|];
         [destruct (TextDocument.lineAt _ (AsmSource.line a - 1))|]|];
      cbn [final emitted];
      (split; [|split];
       [ repeat (first [apply only_decorations_decorate
                       | eapply only_decorations_trans; [apply only_decorations_decorate|]])
       | repeat constructor
       | intros editor; by rewrite ?decorations_decorate_ne by (right; done) ]).
  - rewrite (asmLineSelected_undefined line w r Hl Hline). cbn [final emitted].
    split; [apply only_decorations_decorate|]. split; [repeat constructor|].
    intros editor. by rewrite decorations_decorate_ne by (right; done).
Qed.


Lemma only_decorations_index_consistent (w w' : World) :
  only_decorations w w' → index_consistent w → index_consistent w'.
Proof.
  intros Hframe. unfold index_consistent, sourcePath_of, listing_of.
  rewrite (only_decorations_document_of _ _ _ Hframe).
  destruct Hframe as (-> & _). done.
Qed.

Lemma load_only_decorations (uri : Uri.t) (w : World) :
  only_decorations (reloaded uri w) (final (load uri w)).
Proof.
  rewrite load_run. cbn zeta. destruct (dim_enabled w); cbn [final].
  - apply only_decorations_decorate.
  - apply only_decorations_refl.
Qed.

Lemma reloaded_index_consistent (uri : Uri.t) (w : World) :
  index_consistent (reloaded uri w).
Proof. reflexivity. Qed.

Lemma load_index_consistent (uri : Uri.t) (w : World) :
  index_consistent (final (load uri w)).
Proof.
  eapply only_decorations_index_consistent;
    [apply load_only_decorations | apply reloaded_index_consistent].
Qed.

Lemma find_showing_Some (w : World) (editors : list EditorRef) (tracked found : EditorRef) :
  find_showing w editors tracked = Some found →
  found ∈ editors ∧
  TextEditor.document (Host.editors (host w) found)
    = TextEditor.document (Host.editors (host w) tracked).
Proof.
  unfold find_showing. intros [Hin Hdoc]%find_some.
  split; [by apply list_elem_of_In|]. by apply bool_decide_eq_true in Hdoc.
Qed.

Lemma reassociated_documents (editors : list EditorRef) (w : World) :
  let w' := reassociated editors w in
  TextEditor.document (Host.editors (host w') (AsmDecorator.srcEditor (self w')))
    = TextEditor.document (Host.editors (host w) (AsmDecorator.srcEditor (self w))) ∧
  TextEditor.document (Host.editors (host w') (AsmDecorator.asmEditor (self w')))
    = TextEditor.document (Host.editors (host w) (AsmDecorator.asmEditor (self w))).
Proof.
  cbn zeta. unfold reassociated. cbn.
  split.
  - destruct (find_showing w editors (AsmDecorator.srcEditor (self w))) as [e|] eqn:He;
      cbn; [|done]. by apply find_showing_Some in He as [_ ->].
  - destruct (find_showing w editors (AsmDecorator.asmEditor (self w))) as [e|] eqn:He;
      cbn; [|done]. by apply find_showing_Some in He as [_ ->].
Qed.







(** *** Selection dispatch *)

(** X1.  A selection change in an editor that is neither tracked editor is
    ignored: no fault, no host call, the world as it was. *)
Theorem updateSelection_other_editor (editor : EditorRef) (w : World) :
  editor ≠ AsmDecorator.srcEditor (self w) →
  editor ≠ AsmDecorator.asmEditor (self w) →
  updateSelection editor w = mkOutcome w [] (inr tt).
Proof.
  intros Hsrc Hasm. rewrite updateSelection_run. cbn zeta.
  by rewrite !decide_False.
Qed.

(** X2.  When the cursor of the source editor is on a line of its document,
    a selection change in the source editor never faults: it first
    highlights that line in the source editor, and, the two tracked editors
    being distinct objects, that line is the source editor's selected
    decoration afterwards. *)
Theorem updateSelection_source_total (w : World) :
  let src := AsmDecorator.srcEditor (self w) in
  let asm := AsmDecorator.asmEditor (self w) in
  let line := TextEditor.selection_start_line (Host.editors (host w) src) in
  let o := updateSelection src w in
  (line < TextDocument.lineCount (document_of w src))%nat →
  ∃ content,
    TextDocument.text (document_of w src) !! line = Some content ∧
    result o = inr tt ∧
    head (emitted o)
      = Some (SetDecorations src selectedLineDecorationType
                [TextDocument.lineRange line content]) ∧
    (src ≠ asm →
     decorations (final o) src selectedLineDecorationType
       = [TextDocument.lineRange line content]).
Proof.
  cbn zeta. intros Hline.
  destruct (lineAt_in_range (document_of w (AsmDecorator.srcEditor (self w)))
              (Z.of_nat (TextEditor.selection_start_line
                 (Host.editors (host w) (AsmDecorator.srcEditor (self w))))))
    as (content & Hc & Hat); [lia|].
  rewrite Nat2Z.id in Hc, Hat. exists content. split; [done|].
  rewrite updateSelection_run. cbn zeta. rewrite decide_True by done.
  rewrite (srcLineSelected_run _ w _ Hat). cbn zeta. cbn [result emitted final head].
  split; [done|]. split; [done|]. intros Hne.
  rewrite decorations_decorate_ne by (left; congruence).
  apply decorations_decorate_eq.
Qed.

(** X3.  Selecting a line of the source view sends the source highlight,
    the listing highlight and, exactly when the listing highlight is not
    empty, one reveal of its first range in the listing editor.  When every
    entry of the bucket is at or beyond the listing view's line count, the
    listing highlight is empty. *)
Theorem srcLineSelected_reveal (line : Z) (srcLineRange : Range.t) (w : World) :
  let src := AsmDecorator.srcEditor (self w) in
  let asm := AsmDecorator.asmEditor (self w) in
  let o := srcLineSelected line w in
  let applied := decorations (final o) asm selectedLineDecorationType in
  TextDocument.lineAt (document_of w src) line = inr srcLineRange →
  emitted o
  = [SetDecorations src selectedLineDecorationType [srcLineRange];
     SetDecorations asm selectedLineDecorationType applied]
    ++ match applied with
       | first :: _ => [RevealRange asm first InCenterIfOutsideViewport]
       | [] => []
       end
  ∧ ∀ bucket, AsmDecorator.mappings (self w) !! line = Some bucket →
      Forall (λ i, TextDocument.lineCount (document_of w asm) ≤ i)%nat bucket →
      applied = [].
Proof.
  cbn zeta. intros Hline. rewrite (srcLineSelected_run line w srcLineRange Hline).
  cbn zeta. cbn [final emitted]. rewrite decorations_decorate_eq. split; [done|].
  intros bucket -> Hstale. induction Hstale as [|i bucket Hi _ IH]; [done|].
  cbn [omap list_omap]. by rewrite range_at_None.
Qed.

(** *** Listing to source *)

(** X4.  Selecting a line of the listing view whose listing line has no
    source against the current source view (no annotation, no file, or a
    file whose basename does not end the source path) highlights that
    listing line, clears the source view's selected decoration and reveals
    nothing. *)
Theorem asmLineSelected_no_source (line : Z) (l : AsmLine.t) (asmLineRange : Range.t)
    (w : World) :
  let src := AsmDecorator.srcEditor (self w) in
  let asm := AsmDecorator.asmEditor (self w) in
  let o := asmLineSelected line w in
  index_lines (listing_of w) line = Some l →
  hasSource (sourcePath_of w) l = false →
  TextDocument.lineAt (document_of w asm) line = inr asmLineRange →
  result o = inr tt ∧
  emitted o = [SetDecorations asm selectedLineDecorationType [asmLineRange];
               SetDecorations src selectedLineDecorationType []] ∧
  decorations (final o) src selectedLineDecorationType = [].
Proof.
  cbn zeta. intros Hl Hno Hline.
  rewrite (asmLineSelected_run line w l asmLineRange Hl Hline). cbn zeta. rewrite Hno.
  cbn [result emitted final]. split; [done|]. split; [done|].
  apply decorations_decorate_eq.
Qed.

(** X5.  Selecting a line of the listing view whose listing line maps to
    source line [s], a line of the source view, highlights the listing
    line, then highlights and reveals source line [s]; with distinct
    editors both highlights are in place afterwards. *)
Theorem asmLineSelected_with_source (line s : Z) (l : AsmLine.t)
    (asmLineRange srcLineRange : Range.t) (w : World) :
  let src := AsmDecorator.srcEditor (self w) in
  let asm := AsmDecorator.asmEditor (self w) in
  let o := asmLineSelected line w in
  index_lines (listing_of w) line = Some l →
  maps_to (sourcePath_of w) l s = true →
  TextDocument.lineAt (document_of w asm) line = inr asmLineRange →
  TextDocument.lineAt (document_of w src) s = inr srcLineRange →
  result o = inr tt ∧
  emitted o = [SetDecorations asm selectedLineDecorationType [asmLineRange];
               SetDecorations src selectedLineDecorationType [srcLineRange];
               RevealRange src srcLineRange InCenterIfOutsideViewport] ∧
  decorations (final o) src selectedLineDecorationType = [srcLineRange] ∧
  (src ≠ asm → decorations (final o) asm selectedLineDecorationType = [asmLineRange]).
Proof.
  cbn zeta. intros Hl Hmaps Hline Hsrc.
  rewrite (asmLineSelected_run line w l asmLineRange Hl Hline). cbn zeta.
  unfold maps_to in Hmaps. apply andb_true_iff in Hmaps as [-> Hs].
  destruct (AsmLine.source l) as [a|]; [|done].
  apply Z.eqb_eq in Hs. rewrite Hs, Hsrc. cbn [result emitted final].
  split; [done|]. split; [done|]. split; [apply decorations_decorate_eq|].
  intros Hne. rewrite decorations_decorate_ne by (left; done).
  apply decorations_decorate_eq.
Qed.

(** X6.  When the listing line maps to a source line that is not a line of
    the source view (an annotation with line 0, or a source document
    shorter than the annotation says), the handler throws at [lineAt] after
    it highlighted the listing line: the listing highlight is applied, the
    source view keeps whatever it showed, nothing is revealed. *)
Theorem asmLineSelected_source_line_out_of_range (line s : Z) (l : AsmLine.t)
    (asmLineRange : Range.t) (w : World) :
  let src := AsmDecorator.srcEditor (self w) in
  let asm := AsmDecorator.asmEditor (self w) in
  index_lines (listing_of w) line = Some l →
  maps_to (sourcePath_of w) l s = true →
  TextDocument.lineAt (document_of w asm) line = inr asmLineRange →
  ¬ (0 ≤ s < Z.of_nat (TextDocument.lineCount (document_of w src))) →
  asmLineSelected line w
  = mkOutcome (decorate asm selectedLineDecorationType [asmLineRange] w)
      [SetDecorations asm selectedLineDecorationType [asmLineRange]]
      (inl IllegalLine).
Proof.
  cbn zeta. intros Hl Hmaps Hline Hout.
  rewrite (asmLineSelected_run line w l asmLineRange Hl Hline). cbn zeta.
  unfold maps_to in Hmaps. apply andb_true_iff in Hmaps as [-> Hs].
  destruct (AsmLine.source l) as [a|]; [|done].
  apply Z.eqb_eq in Hs. by rewrite Hs, (lineAt_out_of_range _ _ Hout).
Qed.

(** X7.  The exact condition under which the listing-to-source handler
    completes: the selected line is a line of the listing view and of the
    cached listing, and, if that listing line has source, its source line
    is a line of the source view. *)
Theorem asmLineSelected_ok_iff (line : Z) (w : World) :
  let src := AsmDecorator.srcEditor (self w) in
  let asm := AsmDecorator.asmEditor (self w) in
  result (asmLineSelected line w) = inr tt ↔
  0 ≤ line < Z.of_nat (TextDocument.lineCount (document_of w asm)) ∧
  ∃ l, index_lines (listing_of w) line = Some l ∧
       ∀ s, maps_to (sourcePath_of w) l s = true →
            0 ≤ s < Z.of_nat (TextDocument.lineCount (document_of w src)).
Proof.
  cbn zeta.
  destruct (decide (0 ≤ line < Z.of_nat (TextDocument.lineCount
              (document_of w (AsmDecorator.asmEditor (self w)))))) as [Hin|Hout];
    last first.
  { rewrite (asmLineSelected_illegal line w IllegalLine)
      by (by apply lineAt_out_of_range).
    cbn. split; [done | by intros [? _]]. }
  destruct (lineAt_in_range _ _ Hin) as (content & _ & Hat).
  destruct (index_lines (listing_of w) line) as [l|] eqn:Hl; last first.
  { rewrite (asmLineSelected_undefined line w _ Hl Hat). cbn.
    split; [done | by intros (_ & ? & ? & _)]. }
  rewrite (asmLineSelected_run line w l _ Hl Hat). cbn zeta. unfold maps_to.
  destruct (hasSource (sourcePath_of w) l) eqn:Hhas; cbn [andb]; last first.
  { cbn [result]. split; [|done]. intros _. split; [done|]. exists l.
    split; [done|]. intros s Hs. rewrite Hhas in Hs. discriminate Hs. }
  destruct (AsmLine.source l) as [a|] eqn:Ha.
  - destruct (decide (0 ≤ AsmSource.line a - 1 < Z.of_nat (TextDocument.lineCount
                (document_of w (AsmDecorator.srcEditor (self w)))))) as [Hs|Hs].
    + destruct (lineAt_in_range _ _ Hs) as (c & _ & ->). cbn.
      split; [|done]. intros _. split; [done|]. exists l. split; [done|].
      intros s Hm. rewrite Hhas, Ha in Hm. cbn in Hm. by apply Z.eqb_eq in Hm as <-.
    + rewrite (lineAt_out_of_range _ _ Hs). cbn. split; [done|].
      intros (_ & l' & [= <-] & Hall). destruct Hs. apply Hall.
      rewrite Hhas, Ha. cbn. by apply Z.eqb_eq.
  - apply hasSource_source in Hhas as [a' Ha']. congruence.
Qed.

(** X8.  Whatever editor raises it and whatever path is taken, a selection
    change touches editor decorations only: the decorator's fields, the
    documents, the provider and the settings are as before; every host call
    is a selected-line decoration or a reveal (no listing is fetched); no
    unused-line decoration changes. *)
Theorem updateSelection_frame (editor : EditorRef) (w : World) :
  let o := updateSelection editor w in
  only_decorations w (final o) ∧
  Forall (λ c, is_selection_call c = true) (emitted o) ∧
  ∀ e, decorations (final o) e unusedLineDecorationType
       = decorations w e unusedLineDecorationType.
Proof.
  cbn zeta. rewrite updateSelection_run. cbn zeta.
  destruct (decide _); [apply srcLineSelected_frame|].
  destruct (decide _); [apply asmLineSelected_frame|].
  cbn. split; [apply only_decorations_refl|]. by split; [constructor|].
Qed.


Lemma load_tracking_kept (uri : Uri.t) (w : World) :
  tracking_kept w (final (load uri w)).
Proof.
  eapply (tracking_kept_trans _ (reloaded uri w));
    [by repeat split | apply only_decorations_tracking_kept, load_only_decorations].
Qed.

Lemma updateVisibility_tracking_kept (uri : Uri.t) (visible : bool) (w : World) :
  tracking_kept w (final (updateVisibility uri visible w)).
Proof.
  rewrite updateVisibility_run. cbn zeta.
  destruct (decide _); [apply tracking_kept_refl|].
  destruct visible.
  - eapply (tracking_kept_trans _ (with_self (set_visible true) w));
      [by repeat split | apply load_tracking_kept].
  - cbn [final]. eapply (tracking_kept_trans _ (with_self (set_visible false) w));
      [by repeat split|].
    apply only_decorations_tracking_kept.
    eapply only_decorations_trans; [|apply only_decorations_decorate].
    eapply only_decorations_trans; [|apply only_decorations_decorate].
    apply only_decorations_decorate.
Qed.

Lemma handle_tracking_kept (ev : Event) (w : World) :
  tracking_kept w (final (handle ev w)).
Proof.
  destruct ev as [changedUri|textEditor|editors]; cbn [handle].
  - unfold onDidChange. rewrite bind_gets.
    destruct (decide _); [apply load_tracking_kept | apply tracking_kept_refl].
  - unfold onDidChangeTextEditorSelection. rewrite updateSelection_run. cbn zeta.
    destruct (decide _);
      [apply only_decorations_tracking_kept, srcLineSelected_frame|].
    destruct (decide _);
      [apply only_decorations_tracking_kept, asmLineSelected_frame|].
    apply tracking_kept_refl.
  - rewrite onDidChangeVisibleTextEditors_run.
    eapply (tracking_kept_trans _ (reassociated editors w));
      [|apply updateVisibility_tracking_kept].
    destruct (reassociated_documents editors w) as [Hs Ha]. by repeat split.
Qed.

(** *** Visibility *)

(** X9.  Visible to hidden: the stored visibility becomes [false] and the
    three decorations of the tracked editors are cleared, in the order
    listing selected, source selected, source unused; no listing is
    fetched and the index and the cached listing are kept. *)
Theorem updateVisibility_hide (uri : Uri.t) (w : World) :
  let src := AsmDecorator.srcEditor (self w) in
  let asm := AsmDecorator.asmEditor (self w) in
  let o := updateVisibility uri false w in
  AsmDecorator.visible (self w) = true →
  result o = inr tt ∧
  emitted o = [SetDecorations asm selectedLineDecorationType [];
               SetDecorations src selectedLineDecorationType [];
               SetDecorations src unusedLineDecorationType []] ∧
  self (final o) = set_visible false (self w) ∧
  decorations (final o) asm selectedLineDecorationType = [] ∧
  decorations (final o) src selectedLineDecorationType = [] ∧
  decorations (final o) src unusedLineDecorationType = [].
Proof.
  cbn zeta. intros Hvis. rewrite updateVisibility_run. cbn zeta.
  rewrite decide_False by (rewrite Hvis; done). cbn [result emitted final].
  split; [done|]. split; [done|]. split; [done|].
  rewrite !decorations_decorate.
  repeat split; repeat case_decide; naive_solver.
Qed.

(** X10.  Hidden to visible: the stored visibility becomes [true] and the
    callback is a reload: the listing is fetched for [uri], the index is
    rebuilt from it, and, unless the setting is off, the unused lines of the
    source document are dimmed. *)
Theorem updateVisibility_show (uri : Uri.t) (w : World) :
  let src := AsmDecorator.srcEditor (self w) in
  let o := updateVisibility uri true w in
  AsmDecorator.visible (self w) = false →
  result o = inr tt ∧
  AsmDecorator.visible (self (final o)) = true ∧
  AsmDecorator.document (self (final o)) = Host.provideAsmDocument (host w) uri ∧
  index_consistent (final o) ∧
  head (emitted o) = Some (ProvideAsmDocument uri) ∧
  (default true (Host.dimUnusedSourceLines_setting (host w)
                   (TextDocument.uri (document_of w src))) = true →
   decorations (final o) src unusedLineDecorationType
     = unused_ranges (document_of w src) (AsmDecorator.mappings (self (final o)))).
Proof.
  cbn zeta. intros Hvis. rewrite updateVisibility_run. cbn zeta.
  rewrite decide_False by (rewrite Hvis; done).
  split; [apply load_result|]. rewrite load_self.
  split; [done|]. split; [done|]. split; [apply load_index_consistent|].
  rewrite load_run. cbn zeta. unfold dim_enabled. cbn [self with_self set_visible
    AsmDecorator.visible AsmDecorator.srcEditor host].
  change (document_of (with_self (set_visible true) w)) with (document_of w).
  rewrite andb_true_r.
  destruct (default true _) eqn:Hset; cbn [emitted final head].
  - split; [done|]. intros _. by rewrite decorations_decorate_eq.
  - split; [done | done].
Qed.

(** X11.  When the set of visible editors changes, each tracked handle
    moves to the first listed editor that shows the same document and stays
    when there is none; either way the tracked editors show the documents
    they showed before.  The stored visibility afterwards is whether both
    documents were found. *)
Theorem visible_editors_reassociation (editors : list EditorRef) (w : World) :
  let w' := final (onDidChangeVisibleTextEditors editors w) in
  AsmDecorator.srcEditor (self w')
    = default (AsmDecorator.srcEditor (self w))
        (find_showing w editors (AsmDecorator.srcEditor (self w))) ∧
  AsmDecorator.asmEditor (self w')
    = default (AsmDecorator.asmEditor (self w))
        (find_showing w editors (AsmDecorator.asmEditor (self w))) ∧
  TextEditor.document (Host.editors (host w') (AsmDecorator.srcEditor (self w')))
    = TextEditor.document (Host.editors (host w) (AsmDecorator.srcEditor (self w))) ∧
  TextEditor.document (Host.editors (host w') (AsmDecorator.asmEditor (self w')))
    = TextEditor.document (Host.editors (host w) (AsmDecorator.asmEditor (self w))) ∧
  AsmDecorator.visible (self w') = both_found editors w ∧
  result (onDidChangeVisibleTextEditors editors w) = inr tt.
Proof.
  cbn zeta.
  destruct (handle_tracking_kept (DidChangeVisibleTextEditors editors) w)
    as (_ & _ & _ & Hs & Ha).
  cbn [handle] in Hs, Ha. rewrite Hs, Ha.
  rewrite onDidChangeVisibleTextEditors_run, updateVisibility_run. cbn zeta.
  destruct (decide (both_found editors w = _)) as [Heq|Hne].
  - cbn [final result]. by rewrite Heq.
  - destruct (both_found editors w) eqn:Hb.
    + by rewrite load_self, load_result.
    + done.
Qed.


(** *** Construction and runs of events *)

(** X12.  Construction never faults.  It records the two handles, takes the
    listing editor's document identity as the tracked one, computes
    [visible] as membership of both editors in the host's visible set,
    fetches the listing for the tracked identity first of all and builds
    the index from it, whether visible or not; no selected-line decoration
    is applied. *)
Theorem constructor_establishes (h : Host.t) (srcEditor asmEditor : EditorRef) :
  let o := constructor h srcEditor asmEditor in
  let w := final o in
  let uri := TextDocument.uri
    (Host.documents h (TextEditor.document (Host.editors h asmEditor))) in
  result o = inr tt ∧
  AsmDecorator.srcEditor (self w) = srcEditor ∧
  AsmDecorator.asmEditor (self w) = asmEditor ∧
  AsmDecorator.uri (self w) = uri ∧
  AsmDecorator.visible (self w)
    = bool_decide (srcEditor ∈ Host.visibleTextEditors h)
      && bool_decide (asmEditor ∈ Host.visibleTextEditors h) ∧
  AsmDecorator.document (self w) = Host.provideAsmDocument h uri ∧
  index_consistent w ∧
  head (emitted o) = Some (ProvideAsmDocument uri) ∧
  Forall (λ c, is_selection_call c = false) (emitted o).
Proof.
  cbn zeta. unfold constructor.
  split; [apply load_result|]. rewrite load_self.
  do 5 (split; [done|]). split; [apply load_index_consistent|].
  rewrite load_run. cbn zeta. destruct (dim_enabled _); cbn [emitted head];
    (split; [done | by repeat constructor]).
Qed.


(** X14.  In every world reached from construction by handling events, the
    tracked editors show the documents the constructor's two editors
    showed, and the tracked identity is the identity of the document the
    tracked listing editor shows. *)
Theorem tracking_reachable (h : Host.t) (srcEditor asmEditor : EditorRef)
    (evs : list Event) :
  let w := after evs (final (constructor h srcEditor asmEditor)) in
  TextEditor.document (Host.editors (host w) (AsmDecorator.srcEditor (self w)))
    = TextEditor.document (Host.editors h srcEditor) ∧
  TextEditor.document (Host.editors (host w) (AsmDecorator.asmEditor (self w)))
    = TextEditor.document (Host.editors h asmEditor) ∧
  AsmDecorator.uri (self w)
    = TextDocument.uri (document_of w (AsmDecorator.asmEditor (self w))).
Proof.
  cbn zeta.
  assert (Hrun : ∀ w, tracking_kept w (after evs w)).
  { induction evs as [|ev evs IH]; intros w; [apply tracking_kept_refl|].
    cbn [after fold_left]. eapply tracking_kept_trans; [apply handle_tracking_kept|].
    apply IH. }
  unfold constructor.
  set (w0 := mkWorld h _).
  destruct (tracking_kept_trans _ _ _ (load_tracking_kept (AsmDecorator.uri (self w0)) w0)
              (Hrun _)) as (Hu & Hd & _ & Hs & Ha).
  cbn [self w0 AsmDecorator.uri AsmDecorator.srcEditor AsmDecorator.asmEditor host]
    in Hu, Hd, Hs, Ha.
  split; [exact Hs|]. split; [exact Ha|].
  unfold document_of. by rewrite Hu, Hd, Ha.
Qed.

(** *** The index *)

(** X15.  After a rebuild every indexed entry is an index of the listing,
    no entry occurs twice in a bucket, and no entry occurs in the buckets of
    two source lines. *)
Theorem index_entries_bounded_disjoint (w : World) :
  let index := AsmDecorator.mappings (self (final (loadMappings w))) in
  ∀ (s : Z) (i : nat),
    NoDup (default [] (index !! s)) ∧
    (i ∈ default [] (index !! s) →
     (i < length (listing_of w))%nat ∧
     ∀ s', i ∈ default [] (index !! s') → s' = s).
Proof.
  cbn zeta. intros s i.
  assert (Hb : ∀ s0, default [] (AsmDecorator.mappings (self (final (loadMappings w))) !! s0)
                     = hits (sourcePath_of w) 0 (listing_of w) s0).
  { intros s0. rewrite loadMappings_lookup. by destruct (hits _ _ _ _). }
  rewrite Hb. split; [apply StronglySorted_lt_NoDup, hits_sorted|].
  intros (_ & l & Hl & Hm)%elem_of_hits. rewrite Nat.sub_0_r in Hl.
  split; [by apply lookup_lt_Some in Hl|].
  intros s'. rewrite Hb. intros (_ & l' & Hl' & Hm')%elem_of_hits.
  rewrite Nat.sub_0_r in Hl'. assert (l' = l) as -> by congruence.
  apply maps_to_true in Hm as (a & _ & Ha & _ & _ & <-).
  apply maps_to_true in Hm' as (a' & _ & Ha' & _ & _ & <-). congruence.
Qed.

(** X16.  A rebuild starts from an empty map: its outcome does not depend
    on the index held before.  It never faults, sends nothing to the host
    and changes no field but [mappings]. *)
Theorem loadMappings_rebuild (m : gmap Z (list nat)) (w : World) :
  loadMappings (with_self (set_mappings m) w) = loadMappings w ∧
  result (loadMappings w) = inr tt ∧
  emitted (loadMappings w) = [] ∧
  host (final (loadMappings w)) = host w ∧
  AsmDecorator.document (self (final (loadMappings w))) = AsmDecorator.document (self w) ∧
  AsmDecorator.visible (self (final (loadMappings w))) = AsmDecorator.visible (self w) ∧
  AsmDecorator.srcEditor (self (final (loadMappings w))) = AsmDecorator.srcEditor (self w) ∧
  AsmDecorator.asmEditor (self (final (loadMappings w))) = AsmDecorator.asmEditor (self w) ∧
  AsmDecorator.uri (self (final (loadMappings w))) = AsmDecorator.uri (self w).
Proof.
  rewrite !loadMappings_run. cbn [result emitted final].
  split; [by destruct w as [h []]|]. by repeat split.
Qed.

(** X17.  [dimUnusedSourceLines] never faults and sends one decoration: the
    ranges of the lines of the source document that are no key of the
    index, in ascending order, each the range of the whole line.  Keys that
    are no line of the document play no part. *)
Theorem dimUnusedSourceLines_lines (w : World) :
  let src := AsmDecorator.srcEditor (self w) in
  let d := document_of w src in
  let o := dimUnusedSourceLines w in
  ∃ unused,
    o = mkOutcome (decorate src unusedLineDecorationType unused w)
          [SetDecorations src unusedLineDecorationType unused] (inr tt) ∧
    range_lines unused
      = List.filter (λ line, bool_decide (AsmDecorator.mappings (self w) !! Z.of_nat line = None))
          (seq 0 (TextDocument.lineCount d)) ∧
    ∀ r, r ∈ unused → range_at d (Position.line (Range.start r)) = Some r.
Proof.
  cbn zeta. eexists. split; [apply dimUnusedSourceLines_run|].
  unfold unused_ranges.
  set (d := document_of w (AsmDecorator.srcEditor (self w))).
  set (m := AsmDecorator.mappings (self w)).
  assert (Hlines : ∀ lines, Forall (λ line, line < TextDocument.lineCount d)%nat lines →
            range_lines (omap (λ line, match m !! Z.of_nat line with
                                       | None => range_at d line
                                       | Some _ => None
                                       end) lines)
            = List.filter (λ line, bool_decide (m !! Z.of_nat line = None)) lines).
  { induction 1 as [|line lines Hline _ IH]; [done|].
    cbn [omap list_omap List.filter].
    destruct (m !! Z.of_nat line) eqn:Hm.
    - by rewrite bool_decide_eq_false_2.
    - rewrite bool_decide_eq_true_2 by done.
      destruct (range_at_Some d line Hline) as [r Hr]. rewrite Hr.
      cbn. f_equal; [by apply range_at_line in Hr | apply IH]. }
  split.
  - apply Hlines, list.Forall_forall. intros line Hin%elem_of_seq. lia.
  - intros r (line & _ & Hr)%list_elem_of_omap.
    destruct (m !! Z.of_nat line); [done|].
    by rewrite (range_at_line _ _ _ Hr).
Qed.

(** X18.  A listing line has source against a source path exactly when the
    path ends with the basename of the annotation's file; nothing else of
    the annotation matters.  So annotations whose files share a basename
    are not told apart, and an annotation whose file has the empty basename
    has source against every path. *)
Theorem hasSource_by_suffix (sourcePath : string) (l : AsmLine.t) :
  (hasSource sourcePath l = true ↔
   ∃ a f before, AsmLine.source l = Some a ∧ AsmSource.file a = Some f
                 ∧ sourcePath = before +:+ basename f) ∧
  (∀ l' a a' f f',
     AsmLine.source l = Some a → AsmSource.file a = Some f →
     AsmLine.source l' = Some a' → AsmSource.file a' = Some f' →
     basename f = basename f' →
     hasSource sourcePath l = hasSource sourcePath l') ∧
  (∀ a f, AsmLine.source l = Some a → AsmSource.file a = Some f →
     basename f = "" → hasSource sourcePath l = true).
Proof.
  unfold hasSource. split; [|split].
  - destruct (AsmLine.source l) as [a|]; cbn.
    + destruct (AsmSource.file a) as [f|] eqn:Hf; cbn.
      * rewrite endsWith_spec. split.
        -- intros (before & ->). eauto 10.
        -- intros (a' & f' & before & [= <-] & Hf' & ->).
           rewrite Hf in Hf'. injection Hf' as <-. eauto.
      * split; [done|]. intros (a' & f' & before & [= <-] & Hf' & _). congruence.
    + split; [done|]. by intros (? & ? & ? & ? & _).
  - intros l' a a' f f' -> Hf -> Hf' Hb. cbn. by rewrite Hf, Hf', Hb.
  - intros a f -> Hf Hb. cbn. rewrite Hf. cbn. rewrite Hb.
    apply endsWith_spec. exists sourcePath. clear.
    induction sourcePath as [|c p IH]; [done|].
    change (String c p = String c (p +:+ "")). by f_equal.
Qed.

(** X19.  A reload never faults.  It fetches the listing exactly once,
    first, and sends at most one more call, the unused-line decoration of
    the source editor; it never reveals and leaves every selected-line
    decoration, the handles, [visible] and the tracked identity as they
    were. *)
Theorem load_frame (uri : Uri.t) (w : World) :
  let src := AsmDecorator.srcEditor (self w) in
  let o := load uri w in
  result o = inr tt ∧
  (emitted o = [ProvideAsmDocument uri] ∨
   ∃ unused, emitted o = [ProvideAsmDocument uri;
                          SetDecorations src unusedLineDecorationType unused]) ∧
  (∀ editor, decorations (final o) editor selectedLineDecorationType
             = decorations w editor selectedLineDecorationType) ∧
  AsmDecorator.document (self (final o)) = Host.provideAsmDocument (host w) uri ∧
  AsmDecorator.visible (self (final o)) = AsmDecorator.visible (self w) ∧
  AsmDecorator.srcEditor (self (final o)) = AsmDecorator.srcEditor (self w) ∧
  AsmDecorator.asmEditor (self (final o)) = AsmDecorator.asmEditor (self w) ∧
  AsmDecorator.uri (self (final o)) = AsmDecorator.uri (self w).
Proof.
  cbn zeta. split; [apply load_result|]. rewrite !load_self.
  rewrite load_run. cbn zeta.
  destruct (dim_enabled w); cbn [emitted final].
  - split; [right; by eexists|].
    split; [intros editor; by rewrite decorations_decorate_ne by (right; done)|].
    by repeat split.
  - split; [by left|]. by repeat split.
Qed.


Lemma reloaded_self_frame (uri : Uri.t) (w w' : World) :
  only_decorations w w' → self (reloaded uri w') = self (reloaded uri w).
Proof.
  intros Hframe. unfold reloaded, sourcePath_of. cbn [self with_self].
  rewrite (only_decorations_document_of _ _ _ Hframe).
  destruct Hframe as (-> & _ & _ & -> & _). done.
Qed.

Lemma dim_enabled_frame (w w' : World) :
  only_decorations w w' → dim_enabled w' = dim_enabled w.
Proof.
  intros Hframe. unfold dim_enabled.
  rewrite (only_decorations_document_of _ _ _ Hframe).
  destruct Hframe as (-> & _ & _ & _ & -> & _). done.
Qed.

Lemma reloaded_self_unchanged (uri : Uri.t) (w : World) :
  index_consistent w →
  AsmDecorator.document (self w) = Host.provideAsmDocument (host w) uri →
  self (reloaded uri w) = self w.
Proof.
  unfold index_consistent, listing_of, reloaded. intros Hidx Hdoc.
  cbn [self with_self]. rewrite <- Hdoc, <- Hidx. by destruct w as [h []].
Qed.

(** X20.  Hiding and then showing a visible pair whose cached listing is
    still what the provider answers brings back the same index and the
    unused-line dimming of that index (unless the setting is off), and
    leaves both selected-line decorations empty: a selection made before
    the pair was hidden is not restored. *)
Theorem hide_then_show (uri : Uri.t) (w : World) :
  let src := AsmDecorator.srcEditor (self w) in
  let asm := AsmDecorator.asmEditor (self w) in
  let o := (updateVisibility uri false ;;; updateVisibility uri true) w in
  AsmDecorator.visible (self w) = true →
  index_consistent w →
  AsmDecorator.document (self w) = Host.provideAsmDocument (host w) uri →
  result o = inr tt ∧
  self (final o) = self w ∧
  decorations (final o) src selectedLineDecorationType = [] ∧
  decorations (final o) asm selectedLineDecorationType = [] ∧
  (default true (Host.dimUnusedSourceLines_setting (host w)
                   (TextDocument.uri (document_of w src))) = true →
   decorations (final o) src unusedLineDecorationType
     = unused_ranges (document_of w src) (AsmDecorator.mappings (self w))).
Proof.
  cbn zeta. intros Hvis Hidx Hdoc.
  erewrite bind_ok; last first.
  { rewrite updateVisibility_run. cbn zeta.
    rewrite decide_False by (rewrite Hvis; done). reflexivity. }
  set (w1 := decorate _ _ _ (decorate _ _ _ (decorate _ _ _ _))).
  rewrite updateVisibility_run. cbn zeta.
  rewrite decide_False by done. cbn [prepend result final].
  set (w2 := with_self (set_visible true) w1).
  assert (Hframe : only_decorations w w2).
  { assert (Hw1 : only_decorations (with_self (set_visible false) w) w1).
    { eapply only_decorations_trans; [|apply only_decorations_decorate].
      eapply only_decorations_trans; [|apply only_decorations_decorate].
      apply only_decorations_decorate. }
    destruct Hw1 as (Hs & Hrest). split; [|exact Hrest].
    unfold w2. cbn [self with_self]. rewrite Hs. cbn [self with_self].
    rewrite <- Hvis. by destruct w as [h []]. }
  assert (Hsel : ∀ editor,
            editor = AsmDecorator.srcEditor (self w) ∨ editor = AsmDecorator.asmEditor (self w) →
            decorations (reloaded uri w2) editor selectedLineDecorationType = []).
  { intros editor.
    change (decorations (reloaded uri w2) editor selectedLineDecorationType)
      with (decorations w1 editor selectedLineDecorationType).
    unfold w1. rewrite !decorations_decorate.
    cbn [self with_self set_visible AsmDecorator.srcEditor AsmDecorator.asmEditor].
    intros [-> | ->]; repeat case_decide; naive_solver. }
  assert (Hself : self (reloaded uri w2) = self w)
    by (by rewrite (reloaded_self_frame uri w w2 Hframe), reloaded_self_unchanged).
  split; [apply load_result|]. rewrite load_self. split; [exact Hself|].
  rewrite load_run. cbn zeta. rewrite Hself, (dim_enabled_frame _ _ Hframe).
  rewrite (only_decorations_document_of _ _ _ Hframe), (proj1 Hframe).
  unfold dim_enabled. rewrite Hvis, andb_true_r.
  destruct (default true _); cbn [final].
  - rewrite !decorations_decorate_ne by (right; done).
    split; [apply Hsel; by left|]. split; [apply Hsel; by right|].
    intros _. apply decorations_decorate_eq.
  - split; [apply Hsel; by left|]. split; [apply Hsel; by right|]. done.
Qed.

End Extras.

(** *** The further properties at the scenario *)

Lemma updateSelection_other_editor_witness :
  7%nat ≠ AsmDecorator.srcEditor (self both_shown) ∧
  7%nat ≠ AsmDecorator.asmEditor (self both_shown) ∧
  updateSelection (H := posix) 7%nat both_shown = mkOutcome both_shown [] (inr tt).
Proof.
  split; [vm_compute; discriminate|]. split; [vm_compute; discriminate|].
  apply (updateSelection_other_editor (H := posix) 7%nat both_shown);
    vm_compute; discriminate.
Defined.

Lemma updateSelection_source_total_witness :
  (TextEditor.selection_start_line (Host.editors (host both_shown) 0%nat)
   < TextDocument.lineCount (document_of both_shown 0%nat))%nat ∧
  result (updateSelection (H := posix) 0%nat both_shown) = inr tt.
Proof.
  split; [vm_compute; lia|].
  destruct (updateSelection_source_total (H := posix) both_shown)
    as (content & _ & Hok & _); [vm_compute; lia|].
  exact Hok.
Defined.

Lemma srcLineSelected_reveal_witness :
  TextDocument.lineAt (document_of shrunk_listing_view 0%nat) 9
    = inr (TextDocument.lineRange 9 "x") ∧
  AsmDecorator.mappings (self shrunk_listing_view) !! 9 = Some [3%nat] ∧
  decorations (final (srcLineSelected 9 shrunk_listing_view)) 1%nat
    selectedLineDecorationType = [] ∧
  emitted (srcLineSelected 9 shrunk_listing_view)
  = [SetDecorations 0%nat selectedLineDecorationType [TextDocument.lineRange 9 "x"];
     SetDecorations 1%nat selectedLineDecorationType []].
Proof.
  split; [vm_compute; reflexivity|]. split; [vm_compute; reflexivity|].
  destruct (srcLineSelected_reveal 9 (TextDocument.lineRange 9 "x") shrunk_listing_view)
    as [Hcalls Hstale]; [vm_compute; reflexivity|].
  assert (Hnone : decorations (final (srcLineSelected 9 shrunk_listing_view)) 1%nat
                    selectedLineDecorationType = []).
  { apply (Hstale [3%nat]); [vm_compute; reflexivity|].
    constructor; [vm_compute; lia | constructor]. }
  split; [exact Hnone|].
  rewrite Hcalls.
  change (AsmDecorator.asmEditor (self shrunk_listing_view)) with 1%nat.
  change (AsmDecorator.srcEditor (self shrunk_listing_view)) with 0%nat.
  rewrite Hnone. reflexivity.
Defined.

Lemma asmLineSelected_no_source_witness :
  index_lines (listing_of both_shown) 0 = Some (AsmLine.mk "" None) ∧
  hasSource (H := posix) (sourcePath_of both_shown) (AsmLine.mk "" None) = false ∧
  decorations (final (asmLineSelected (H := posix) 0 both_shown)) 0%nat
    selectedLineDecorationType = [].
Proof.
  split; [vm_compute; reflexivity|]. split; [vm_compute; reflexivity|].
  apply (asmLineSelected_no_source (H := posix) 0 (AsmLine.mk "" None)
           (TextDocument.lineRange 0 "nop") both_shown); vm_compute; reflexivity.
Defined.

Lemma asmLineSelected_with_source_witness :
  index_lines (listing_of both_shown) 3 = Some (ac 10) ∧
  maps_to (H := posix) (sourcePath_of both_shown) (ac 10) 9 = true ∧
  emitted (asmLineSelected (H := posix) 3 both_shown)
  = [SetDecorations 1%nat selectedLineDecorationType [TextDocument.lineRange 3 "nop"];
     SetDecorations 0%nat selectedLineDecorationType [TextDocument.lineRange 9 "x"];
     RevealRange 0%nat (TextDocument.lineRange 9 "x") InCenterIfOutsideViewport].
Proof.
  split; [vm_compute; reflexivity|]. split; [vm_compute; reflexivity|].
  apply (asmLineSelected_with_source (H := posix) 3 9 (ac 10)
           (TextDocument.lineRange 3 "nop") (TextDocument.lineRange 9 "x") both_shown);
    vm_compute; reflexivity.
Defined.

Lemma asmLineSelected_source_line_out_of_range_witness :
  index_lines (listing_of stray_annotations) 0 = Some (ac 0) ∧
  maps_to (H := posix) (sourcePath_of stray_annotations) (ac 0) (-1) = true ∧
  result (asmLineSelected (H := posix) 0 stray_annotations) = inl IllegalLine ∧
  index_lines (listing_of stray_annotations) 1 = Some (ac 40) ∧
  result (asmLineSelected (H := posix) 1 stray_annotations) = inl IllegalLine.
Proof.
  split; [vm_compute; reflexivity|]. split; [vm_compute; reflexivity|].
  split.
  { rewrite (asmLineSelected_source_line_out_of_range (H := posix) 0 (-1) (ac 0)
               (TextDocument.lineRange 0 "nop") stray_annotations);
      [reflexivity | vm_compute; reflexivity .. | vm_compute; intros [? _]; done]. }
  split; [vm_compute; reflexivity|].
  rewrite (asmLineSelected_source_line_out_of_range (H := posix) 1 39 (ac 40)
             (TextDocument.lineRange 1 "nop") stray_annotations);
    [reflexivity | vm_compute; reflexivity .. | vm_compute; intros [_ ?]; done].
Defined.

Lemma updateVisibility_hide_witness :
  AsmDecorator.visible (self both_shown) = true ∧
  decorations both_shown 0%nat unusedLineDecorationType ≠ [] ∧
  decorations (final (updateVisibility (H := posix) listing_uri false both_shown)) 0%nat
    unusedLineDecorationType = [].
Proof.
  split; [vm_compute; reflexivity|]. split; [vm_compute; discriminate|].
  apply (updateVisibility_hide (H := posix) listing_uri both_shown).
  vm_compute; reflexivity.
Defined.

Lemma updateVisibility_show_witness :
  AsmDecorator.visible (self source_only) = false ∧
  AsmDecorator.visible
    (self (final (updateVisibility (H := posix) listing_uri true source_only))) = true.
Proof.
  split; [vm_compute; reflexivity|].
  apply (updateVisibility_show (H := posix) listing_uri source_only).
  vm_compute; reflexivity.
Defined.

Lemma index_entries_bounded_disjoint_witness :
  (1%nat ∈ default [] (AsmDecorator.mappings
                   (self (final (loadMappings (H := posix) both_shown))) !! 2)) ∧
  (1 < length (listing_of both_shown))%nat.
Proof.
  split; [vm_compute; left|].
  apply (index_entries_bounded_disjoint (H := posix) both_shown 2 1%nat).
  vm_compute. left.
Defined.

Lemma hasSource_by_suffix_witness :
  (∃ a f before, AsmLine.source (ac 3) = Some a ∧ AsmSource.file a = Some f
                 ∧ "/proj/a.c" = before +:+ basename (Platform := posix) f) ∧
  hasSource (H := posix) "/proj/a.c" (ac 3) = true.
Proof.
  assert (Hex : ∃ a f before, AsmLine.source (ac 3) = Some a ∧ AsmSource.file a = Some f
                 ∧ "/proj/a.c" = before +:+ basename (Platform := posix) f).
  { exists (AsmSource.mk (Some "a.c") 3), "a.c", "/proj/". repeat split. }
  split; [exact Hex|].
  by apply (proj1 (hasSource_by_suffix (H := posix) "/proj/a.c" (ac 3))).
Defined.

Lemma hide_then_show_witness :
  AsmDecorator.visible (self both_shown) = true ∧
  AsmDecorator.document (self both_shown)
    = Host.provideAsmDocument (host both_shown) listing_uri ∧
  self (final ((updateVisibility (H := posix) listing_uri false ;;;
                updateVisibility (H := posix) listing_uri true) both_shown))
    = self both_shown.
Proof.
  split; [vm_compute; reflexivity|]. split; [vm_compute; reflexivity|].
  apply (hide_then_show (H := posix) listing_uri both_shown);
    [vm_compute; reflexivity | | vm_compute; reflexivity].
  unfold both_shown, scenario, constructor. apply load_index_consistent.
Defined.
